(** * ceilometer/network/notifications.py

    A shallow embedding of the Neutron notification handlers
    ([NetworkNotificationBase.process_notification] and
    [Bandwidth.process_notification]) and the properties of the
    event-to-sample transformation.

    The handlers work on decoded notification messages: Python dicts and
    lists reached through references, mutated in place
    ([resource['id'] = ...], [resource_message['payload'] = resource]) and
    handed to every sample that is built.  The model therefore keeps an
    explicit object store; a handler is a generator,
    modelled by the samples it yields (each with the store as it is when the
    sample is handed over), the exception that ended it, if any, and the
    store it leaves behind. *)

From Stdlib Require Import PrimFloat Ascii String.
From stdpp Require Import gmap strings list fin_maps.

(** ** Python values and the object store *)

Definition loc := nat.

(** Immediate values; dicts and lists live in the store and are reached
    through [VRef]. *)
Inductive val :=
  | VNone
  | VBool (b : bool)
  | VInt (n : Z)
  | VFloat (f : float)
  | VStr (s : string)
  | VRef (l : loc).

(** Mutable objects.  Dict keys are strings (decoded JSON objects). *)
Inductive obj :=
  | ODict (d : gmap string val)
  | OList (xs : list val).

Abbreviation heap := (gmap loc obj).

(** The exceptions the handlers can raise.  [Wild l] is not a Python
    exception: it marks a reference to a location outside the store, which
    no Python heap contains; the model stops there. *)
Inductive exn :=
  | KeyError (k : string)
  | TypeError
  | AttributeError
  | IndexError
  | Wild (l : loc).

Global Instance val_inhabited : Inhabited val := populate VNone.

(** ** Python primitives used by the handlers *)

(** [v[k]] for a string key [k]. *)
Definition getitem (h : heap) (v : val) (k : string) : exn + val :=
  match v with
  | VRef l =>
      match h !! l with
      | Some (ODict d) =>
          match d !! k with
          | Some x => inr x
          | None => inl (KeyError k)
          end
      | Some (OList _) => inl TypeError
      | None => inl (Wild l)
      end
  | _ => inl TypeError
  end.

(** [v.get(k)]: only dicts have the method. *)
Definition dict_get (h : heap) (v : val) (k : string) : exn + val :=
  match v with
  | VRef l =>
      match h !! l with
      | Some (ODict d) => inr (default VNone (d !! k))
      | Some (OList _) => inl AttributeError
      | None => inl (Wild l)
      end
  | _ => inl AttributeError
  end.

(** [v[k] = x] for a string key [k]: the object is updated in place. *)
Definition setitem (h : heap) (v : val) (k : string) (x : val) : exn + heap :=
  match v with
  | VRef l =>
      match h !! l with
      | Some (ODict d) => inr (<[l := ODict (<[k := x]> d)]> h)
      | Some (OList _) => inl TypeError
      | None => inl (Wild l)
      end
  | _ => inl TypeError
  end.

(** Truth value of [v] as tested by [if v:]. *)
Definition truthy (h : heap) (v : val) : exn + bool :=
  match v with
  | VNone => inr false
  | VBool b => inr b
  | VInt n => inr (negb (n =? 0)%Z)
  | VFloat f => inr (negb (PrimFloat.eqb f 0%float))
  | VStr s => inr (negb (String.eqb s ""))
  | VRef l =>
      match h !! l with
      | Some (ODict d) => inr (negb (bool_decide (d = ∅)))
      | Some (OList xs) => inr (negb (bool_decide (length xs = 0)))
      | None => inl (Wild l)
      end
  end.

(** [s.endswith(suffix)] on strings. *)
Definition str_endswith (s suffix : string) : bool :=
  Nat.leb (String.length suffix) (String.length s) &&
  String.eqb
    (String.substring (String.length s - String.length suffix)
               (String.length suffix) s)
    suffix.

(** [v.endswith(suffix)]: only strings have the method. *)
Definition endswith (v : val) (suffix : string) : exn + bool :=
  match v with
  | VStr s => inr (str_endswith s suffix)
  | _ => inl AttributeError
  end.

(** [s.split(sep)] for a one-character separator: every occurrence
    splits, empty fields are kept. *)
Fixpoint str_split (sep : ascii) (s : string) : list string :=
  match s with
  | EmptyString => [EmptyString]
  | String c s' =>
      if Ascii.eqb c sep then EmptyString :: str_split sep s'
      else match str_split sep s' with
           | [] => [String c EmptyString]
           | w :: ws => String c w :: ws
           end
  end.

(** [v.split('.')]. *)
Definition split_dot (v : val) : exn + list string :=
  match v with
  | VStr s => inr (str_split "."%char s)
  | _ => inl AttributeError
  end.

(** The characters of a string, as one-character strings. *)
Fixpoint str_chars (s : string) : list val :=
  match s with
  | EmptyString => []
  | String c s' => VStr (String c EmptyString) :: str_chars s'
  end.

(** The items a [for] loop draws from [v]: the elements of a list, the
    keys of a dict (in the order the map enumerates them; the handlers run
    on a Python whose dicts promise no order), the characters of a string;
    anything else is not iterable. *)
Definition iter (h : heap) (v : val) : exn + list val :=
  match v with
  | VRef l =>
      match h !! l with
      | Some (OList xs) => inr xs
      | Some (ODict d) => inr (VStr <$> (map_to_list d).*1)
      | None => inl (Wild l)
      end
  | VStr s => inr (str_chars s)
  | _ => inl TypeError
  end.

(** [v.copy()]: a new dict object with the same items (shallow). *)
Definition dict_copy (h : heap) (v : val) : exn + (val * heap) :=
  match v with
  | VRef l =>
      match h !! l with
      | Some (ODict d) =>
          let l' := fresh (dom h) in inr (VRef l', <[l' := ODict d]> h)
      | Some (OList _) => inl AttributeError
      | None => inl (Wild l)
      end
  | _ => inl AttributeError
  end.

(** ** Samples *)

(** [sample.TYPE_GAUGE], [sample.TYPE_DELTA], [sample.TYPE_CUMULATIVE]:
    the gauge is the spec's STATE kind. *)
Inductive sample_type := TYPE_GAUGE | TYPE_DELTA | TYPE_CUMULATIVE.

(** Modelled from the spec: the [Sample] record of [ceilometer/sample.py],
    which is not part of the sources at hand.  The fields are the spec's
    (name, kind, unit, volume, user_id, project_id, resource_id,
    raw_message).  The record is immutable: it names the message it was
    built from, and what it carries of that message is what the message
    holds in the store of the yield (see [raw_message]). *)
Record Sample := mkSample {
  sample_name : string;
  sample_type_of : sample_type;
  sample_unit : string;
  sample_volume : val;
  sample_user_id : val;
  sample_project_id : val;
  sample_resource_id : val;
  sample_message : val
}.

(** Modelled from the spec: [sample.Sample.from_notification], missing with
    [ceilometer/sample.py]; it builds the record from its keyword
    arguments. *)
Definition from_notification (name : string) (type : sample_type)
    (unit_value : string) (volume user_id project_id resource_id message : val)
    : Sample :=
  mkSample name type unit_value volume user_id project_id resource_id message.

(** ** Generators over the store *)

(** What driving a generator to its end gives: the yielded samples, each
    with the store at the moment it was yielded, the value returned or the
    exception raised, and the store left behind.  Nothing else touches the
    store between two yields. *)
Record run (A : Type) := Run {
  yields : list (Sample * heap);
  result : exn + A;
  final : heap
}.
Arguments Run {A}.
Arguments yields {A}.
Arguments result {A}.
Arguments final {A}.

Definition Gen (A : Type) : Type := heap → run A.

Definition gret {A} (a : A) : Gen A := λ h, Run [] (inr a) h.

Definition gbind {A B} (m : Gen A) (k : A → Gen B) : Gen B := λ h,
  let r := m h in
  match result r with
  | inl e => Run (yields r) (inl e) (final r)
  | inr a =>
      let r' := k a (final r) in
      Run (yields r ++ yields r') (result r') (final r')
  end.

Notation "'let!' x ':=' m 'in' k" := (gbind m (λ x, k))
  (at level 10, x pattern, m at level 100, k at level 200).

(** [yield s]. *)
Definition yield (s : Sample) : Gen unit := λ h, Run [(s, h)] (inr tt) h.

(** An operation that only reads the store. *)
Definition reading {A} (f : heap → exn + A) : Gen A := λ h, Run [] (f h) h.

(** An operation that updates the store, unless it raises. *)
Definition writing {A} (f : heap → exn + (A * heap)) : Gen A := λ h,
  match f h with
  | inl e => Run [] (inl e) h
  | inr (a, h') => Run [] (inr a) h'
  end.

(** [for x in xs: body]. *)
Fixpoint for_each (xs : list val) (body : val → Gen unit) : Gen unit :=
  match xs with
  | [] => gret tt
  | x :: xs' => let! _ := body x in for_each xs' body
  end.

Module Py.
Definition getitem (v : val) (k : string) : Gen val :=
  reading (λ h, getitem h v k).
Definition get (v : val) (k : string) : Gen val :=
  reading (λ h, dict_get h v k).
Definition setitem (v : val) (k : string) (x : val) : Gen unit :=
  writing (λ h, match setitem h v k x with
                | inl e => inl e
                | inr h' => inr (tt, h')
                end).
Definition truthy (v : val) : Gen bool := reading (λ h, truthy h v).
Definition endswith (v : val) (suffix : string) : Gen bool :=
  reading (λ _, endswith v suffix).
Definition split_dot (v : val) : Gen (list string) :=
  reading (λ _, split_dot v).
Definition copy (v : val) : Gen val := writing (λ h, dict_copy h v).
Definition iter (v : val) : Gen (list val) := reading (λ h, iter h v).
(** [xs[i]] on a list of strings built locally. *)
Definition index (xs : list string) (i : nat) : Gen string :=
  reading (λ _, match xs !! i with
                | Some x => inr x
                | None => inl IndexError
                end).
End Py.

(** ** The notification plugins *)

(** The class attributes a subclass of [NetworkNotificationBase] sets:
    [resource_name] always, [counter_name] and [unit] optionally. *)
Record plugin := Plugin {
  resource_name : string;
  attr_counter_name : option string;
  attr_unit : option string
}.

(** [getattr(self, 'counter_name', self.resource_name)] *)
Definition counter_name (self : plugin) : string :=
  default (resource_name self) (attr_counter_name self).

(** [getattr(self, 'unit', self.resource_name)] *)
Definition unit_value (self : plugin) : string :=
  default (resource_name self) (attr_unit self).

Definition Network := Plugin "network" None None.
Definition Subnet := Plugin "subnet" None None.
Definition Port := Plugin "port" None None.
Definition Router := Plugin "router" None None.
Definition FloatingIP := Plugin "floatingip" (Some "ip.floating") (Some "ip").
Definition Pool := Plugin "pool" (Some "network.services.lb.pool") None.
Definition Vip := Plugin "vip" (Some "network.services.lb.vip") None.
Definition Member := Plugin "member" (Some "network.services.lb.member") None.
Definition HealthMonitor :=
  Plugin "health_monitor" (Some "network.services.lb.health_monitor") None.
Definition Firewall := Plugin "firewall" (Some "network.services.firewall") None.
Definition FirewallPolicy :=
  Plugin "firewall_policy" (Some "network.services.firewall.policy") None.
Definition FirewallRule :=
  Plugin "firewall_rule" (Some "network.services.firewall.rule") None.
Definition VPNService := Plugin "vpnservice" (Some "network.services.vpn") None.
Definition IPSecPolicy :=
  Plugin "ipsecpolicy" (Some "network.services.vpn.ipsecpolicy") None.
Definition IKEPolicy :=
  Plugin "ikepolicy" (Some "network.services.vpn.ikepolicy") None.
Definition IPSecSiteConnection :=
  Plugin "ipsec_site_connection" (Some "network.services.vpn.connections") None.

(** The [event_types] property (lines 46-63): the event types a plugin
    listens to. *)
Definition event_types (self : plugin) : list string :=
  [resource_name self +:+ ".create.end";
   resource_name self +:+ ".update.*";
   resource_name self +:+ ".exists"].

(** What the loop of [process_notification] iterates over: the list
    display [[resource]], which only the loop ever sees and is kept as a
    local value, or whatever the payload holds under the plural key. *)
Inductive resources :=
  | Display (xs : list val)
  | Held (v : val).

Definition iter_resources (rs : resources) : Gen (list val) :=
  match rs with
  | Display xs => gret xs
  | Held v => Py.iter v
  end.

Module NetworkNotificationBase.

(** Lines 81-89: the resource, or the resources, of the payload. *)
Definition extract (self : plugin) (message : val) : Gen resources :=
  let! payload := Py.getitem message "payload" in
  let! resource := Py.get payload (resource_name self) in
  let! is_resource := Py.truthy resource in
  if is_resource : bool then
    let! event_type := Py.getitem message "event_type" in
    let! is_update_start := Py.endswith event_type "update.start" in
    let! _ :=
      (if is_update_start : bool then
         let! payload := Py.getitem message "payload" in
         let! id := Py.getitem payload "id" in
         Py.setitem resource "id" id
       else gret tt) in
    gret (Display [resource])
  else
    let! payload := Py.getitem message "payload" in
    let! held := Py.get payload (resource_name self +:+ "s") in
    gret (Held held).

(** Lines 93-114: the body of the loop, for one resource. *)
Definition emit_one (self : plugin) (resource_message resource : val)
    : Gen unit :=
  let! _ := Py.setitem resource_message "payload" resource in
  let! user_id := Py.getitem resource_message "_context_user_id" in
  let! project_id := Py.getitem resource_message "_context_tenant_id" in
  let! resource_id := Py.getitem resource "id" in
  let! _ := yield (from_notification (counter_name self) TYPE_GAUGE
                     (unit_value self) (VInt 1)
                     user_id project_id resource_id resource_message) in
  let! event_type := Py.getitem resource_message "event_type" in
  let! event_type_split := Py.split_dot event_type in
  if 2 <? length event_type_split then
    let! phase := Py.index event_type_split 1 in
    let! user_id := Py.getitem resource_message "_context_user_id" in
    let! project_id := Py.getitem resource_message "_context_tenant_id" in
    let! resource_id := Py.getitem resource "id" in
    yield (from_notification (counter_name self +:+ "." +:+ phase) TYPE_DELTA
             (unit_value self) (VInt 1)
             user_id project_id resource_id resource_message)
  else gret tt.

(** Lines 91-114: one copy of the message, then the loop. *)
Definition emit (self : plugin) (message : val) (rs : resources)
    : Gen unit :=
  let! resource_message := Py.copy message in
  let! xs := iter_resources rs in
  for_each xs (emit_one self resource_message).

(** Lines 76-114.  The [LOG.info] call has no effect on the store or on
    the samples and is left out. *)
Definition process_notification (self : plugin) (message : val)
    : Gen unit :=
  let! rs := extract self message in
  emit self message rs.

End NetworkNotificationBase.

Module Bandwidth.

(** Line 164. *)
Definition event_types : list string := ["l3.meter"].

(** Lines 166-175. *)
Definition process_notification (message : val) : Gen unit :=
  let! payload := Py.getitem message "payload" in
  let! volume := Py.getitem payload "bytes" in
  let! payload := Py.getitem message "payload" in
  let! project_id := Py.getitem payload "tenant_id" in
  let! payload := Py.getitem message "payload" in
  let! resource_id := Py.getitem payload "label_id" in
  yield (from_notification "bandwidth" TYPE_DELTA "B" volume VNone
           project_id resource_id message).

End Bandwidth.

(** ** What the extraction does, case by case *)

(** The three ways lines 81-89 end without raising, for a message at
    [lm]: the plural branch, the singular branch without and with the
    backfill of the id.  Each gives the resources and the store left. *)
Inductive extracts (self : plugin) (h : heap) (lm : loc)
    : resources → heap → Prop :=
  | extracts_plural m lp dp :
      h !! lm = Some (ODict m) →
      m !! "payload" = Some (VRef lp) →
      h !! lp = Some (ODict dp) →
      truthy h (default VNone (dp !! resource_name self)) = inr false →
      extracts self h lm
        (Held (default VNone (dp !! (resource_name self +:+ "s")))) h
  | extracts_single m lp dp et :
      h !! lm = Some (ODict m) →
      m !! "payload" = Some (VRef lp) →
      h !! lp = Some (ODict dp) →
      truthy h (default VNone (dp !! resource_name self)) = inr true →
      m !! "event_type" = Some (VStr et) →
      str_endswith et "update.start" = false →
      extracts self h lm
        (Display [default VNone (dp !! resource_name self)]) h
  | extracts_backfill m lp dp et lr d v :
      h !! lm = Some (ODict m) →
      m !! "payload" = Some (VRef lp) →
      h !! lp = Some (ODict dp) →
      dp !! resource_name self = Some (VRef lr) →
      h !! lr = Some (ODict d) →
      d ≠ ∅ →
      m !! "event_type" = Some (VStr et) →
      str_endswith et "update.start" = true →
      dp !! "id" = Some v →
      extracts self h lm (Display [VRef lr])
        (<[lr := ODict (<["id" := v]> d)]> h).

(** ** What one turn of the loop does, read off the message copy *)

(** The store while the resource [x] is being handled: the copy at [c],
    whose items were [m], has [x] as its payload. *)
Definition at_resource (c : loc) (m : gmap string val) (h : heap) (x : val)
    : heap :=
  <[c := ODict (<["payload" := x]> m)]> h.

(** The samples and the result of lines 93-114 for the resource [x], when
    the copy at [c] holds the items [m] on entry. *)
Definition emit_one_outcome (self : plugin) (c : loc) (m : gmap string val)
    (h : heap) (x : val) : list Sample * (exn + unit) :=
  match m !! "_context_user_id" with
  | None => ([], inl (KeyError "_context_user_id"))
  | Some user_id =>
  match m !! "_context_tenant_id" with
  | None => ([], inl (KeyError "_context_tenant_id"))
  | Some project_id =>
  match getitem (at_resource c m h x) x "id" with
  | inl e => ([], inl e)
  | inr resource_id =>
  let gauge :=
    from_notification (counter_name self) TYPE_GAUGE (unit_value self)
      (VInt 1) user_id project_id resource_id (VRef c) in
  match m !! "event_type" with
  | None => ([gauge], inl (KeyError "event_type"))
  | Some event_type =>
  match split_dot event_type with
  | inl e => ([gauge], inl e)
  | inr event_type_split =>
  if 2 <? length event_type_split then
    match event_type_split !! 1 with
    | None => ([gauge], inl IndexError)
    | Some phase =>
        ([gauge;
          from_notification (counter_name self +:+ "." +:+ phase) TYPE_DELTA
            (unit_value self) (VInt 1) user_id project_id resource_id
            (VRef c)],
         inr tt)
    end
  else ([gauge], inr tt)
  end end end end end.

(** The loop of lines 92-114 over the resources [xs]: [h] is the store in
    which the loop started, [cur] the store as it is now. *)
Fixpoint emit_loop_outcome (self : plugin) (c : loc) (m : gmap string val)
    (h cur : heap) (xs : list val) : run unit :=
  match xs with
  | [] => Run [] (inr tt) cur
  | x :: xs' =>
      let hx := at_resource c m h x in
      let o := emit_one_outcome self c m h x in
      match o.2 with
      | inl e => Run ((λ s, (s, hx)) <$> o.1) (inl e) hx
      | inr _ =>
          let r := emit_loop_outcome self c m h hx xs' in
          Run (((λ s, (s, hx)) <$> o.1) ++ yields r) (result r) (final r)
      end
  end.

(** ** The samples C2 describes *)

(** For one resource: one gauge (STATE) sample named [counter_name], and,
    when the event type has more than two dot-separated segments, one DELTA
    sample named [counter_name + "." + second segment]; both carry the
    plugin's unit, the volume 1 and the same identity fields. *)
Definition samples_of_resource (self : plugin) (event_type : string)
    (user_id project_id resource_id raw_message : val) : list Sample :=
  let segments := str_split "."%char event_type in
  mkSample (counter_name self) TYPE_GAUGE (unit_value self) (VInt 1)
    user_id project_id resource_id raw_message
  :: (if 2 <? length segments then
        [mkSample (counter_name self +:+ "." +:+ default "" (segments !! 1))
           TYPE_DELTA (unit_value self) (VInt 1)
           user_id project_id resource_id raw_message]
      else []).

(** An id that identifies nothing: None or the empty string. *)
Definition empty_id (v : val) : bool :=
  match v with
  | VNone => true
  | VStr s => String.eqb s ""
  | _ => false
  end.

(** ** Well-formed stores and identical samples (for C9) *)

(** [bound h v]: the value is not a reference out of the store. *)
Definition bound (h : heap) (v : val) : bool :=
  match v with
  | VRef l => bool_decide (is_Some (h !! l))
  | _ => true
  end.

(** The values an object holds. *)
Definition obj_items (o : obj) : list val :=
  match o with
  | ODict d => (map_to_list d).*2
  | OList xs => xs
  end.

(** [closed h]: no object of the store refers to a location outside it,
    as in every Python heap. *)
Definition closed (h : heap) : bool :=
  forallb (λ o, forallb (bound h) (obj_items o)) (map_to_list h).*2.

(** The message a sample carries: the object it names, read in the store
    [h] (for what the sample was built from, the store of its yield). *)
Definition raw_message (h : heap) (s : Sample) : option obj :=
  match sample_message s with
  | VRef l => h !! l
  | _ => None
  end.

(** The same name, type, unit, volume and identity fields. *)
Definition same_fields (s1 s2 : Sample) : Prop :=
  sample_name s1 = sample_name s2
  ∧ sample_type_of s1 = sample_type_of s2
  ∧ sample_unit s1 = sample_unit s2
  ∧ sample_volume s1 = sample_volume s2
  ∧ sample_user_id s1 = sample_user_id s2
  ∧ sample_project_id s1 = sample_project_id s2
  ∧ sample_resource_id s1 = sample_resource_id s2.

(** Two yields are field-for-field identical: the same fields, and
    messages holding the same items at the moment of the yield (each call
    makes its own message object). *)
Definition same_yield (y1 y2 : Sample * heap) : Prop :=
  same_fields y1.1 y2.1
  ∧ ∃ o, raw_message y1.2 y1.1 = Some o ∧ raw_message y2.2 y2.1 = Some o.

(** Corresponding yields of two runs of the loop, one over the copy at
    [c1] in the store [h1], the other over the copy at [c2] in [h2]: the
    same fields, and stores in which the two copies are the same object
    value. *)
Definition paired_yield (c1 c2 : loc) (h1 h2 : heap)
    (y1 y2 : Sample * heap) : Prop :=
  same_fields y1.1 y2.1
  ∧ sample_message y1.1 = VRef c1
  ∧ sample_message y2.1 = VRef c2
  ∧ ∃ o, y1.2 = <[c1 := o]> h1 ∧ y2.2 = <[c2 := o]> h2.

(** ** Concrete messages *)

(** A dict object from its items. *)
Definition dict (items : list (string * val)) : obj := ODict (list_to_map items).

(** A message at location 0 with its payload at location 1 and the two
    context fields ("u1", "p1"). *)
Definition envelope (event_type : string) : obj :=
  dict [("event_type", VStr event_type); ("payload", VRef 1);
        ("_context_user_id", VStr "u1"); ("_context_tenant_id", VStr "p1")].

(** The same message without the tenant field. *)
Definition envelope_no_tenant (event_type : string) : obj :=
  dict [("event_type", VStr event_type); ("payload", VRef 1);
        ("_context_user_id", VStr "u1")].

(** Scenario A: "network.create.end", payload {"network": {"id": "n1"}}. *)
Definition scenario_A : heap := list_to_map [
  (0, envelope "network.create.end");
  (1, dict [("network", VRef 2)]);
  (2, dict [("id", VStr "n1")])].

(** Scenario B: "network.exists",
    payload {"networks": [{"id": "n1"}, {"id": "n2"}]}. *)
Definition scenario_B : heap := list_to_map [
  (0, envelope "network.exists");
  (1, dict [("networks", VRef 2)]);
  (2, OList [VRef 3; VRef 4]);
  (3, dict [("id", VStr "n1")]);
  (4, dict [("id", VStr "n2")])].

(** Scenario C: "l3.meter",
    payload {"bytes": 4096, "tenant_id": "p1", "label_id": "lbl1"}. *)
Definition scenario_C : heap := list_to_map [
  (0, dict [("event_type", VStr "l3.meter"); ("payload", VRef 1)]);
  (1, dict [("bytes", VInt 4096); ("tenant_id", VStr "p1");
            ("label_id", VStr "lbl1")])].

(** Scenario D: "network.update.start",
    payload {"id": "n1", "network": {"name": "changed"}}. *)
Definition scenario_D : heap := list_to_map [
  (0, envelope "network.update.start");
  (1, dict [("id", VStr "n1"); ("network", VRef 2)]);
  (2, dict [("name", VStr "changed")])].

(** "network.create.end" with the empty payload {}. *)
Definition empty_payload : heap := list_to_map [
  (0, envelope "network.create.end");
  (1, dict [])].

(** "network.exists" with the payload {"networks": []} and no tenant
    field. *)
Definition no_tenant_no_resource : heap := list_to_map [
  (0, envelope_no_tenant "network.exists");
  (1, dict [("networks", VRef 2)]);
  (2, OList [])].

(** Scenario A without the tenant field. *)
Definition scenario_A_no_tenant : heap := list_to_map [
  (0, envelope_no_tenant "network.create.end");
  (1, dict [("network", VRef 2)]);
  (2, dict [("id", VStr "n1")])].

(** "network.exists" with the payload {"network": {"id": ""}}. *)
Definition empty_id_resource : heap := list_to_map [
  (0, envelope "network.exists");
  (1, dict [("network", VRef 2)]);
  (2, dict [("id", VStr "")])].

(** "network.exists" with the payload
    {"network": {}, "networks": [{"id": "n1"}]}. *)
Definition falsy_singular : heap := list_to_map [
  (0, envelope "network.exists");
  (1, dict [("network", VRef 2); ("networks", VRef 3)]);
  (2, dict []);
  (3, OList [VRef 4]);
  (4, dict [("id", VStr "n1")])].

(** "network.update.start" with the payload
    {"id": "n1", "network": {"id": "stale", "name": "changed"}}. *)
Definition update_start_own_id : heap := list_to_map [
  (0, envelope "network.update.start");
  (1, dict [("id", VStr "n1"); ("network", VRef 2)]);
  (2, dict [("id", VStr "stale"); ("name", VStr "changed")])].

(** ** Beyond the handlers' bodies: strings, targets, the plugin classes *)

(** No "." in the string. *)
Fixpoint dot_free (s : string) : bool :=
  match s with
  | EmptyString => true
  | String c s' => negb (Ascii.eqb c "."%char) && dot_free s'
  end.

(** [sep.join(xs)]. *)
Fixpoint str_join (sep : string) (xs : list string) : string :=
  match xs with
  | [] => ""
  | x :: rest =>
      match rest with
      | [] => x
      | _ :: _ => x +:+ sep +:+ str_join sep rest
      end
  end.

(** The exceptions the generic handler raises on one input or another:
    KeyError for one of the five keys it subscripts with, TypeError,
    AttributeError, or the model's [Wild]; never IndexError. *)
Definition generic_handler_error (e : exn) : bool :=
  match e with
  | KeyError k =>
      bool_decide (k ∈ ["payload"; "event_type"; "id";
                        "_context_user_id"; "_context_tenant_id"])
  | TypeError | AttributeError | Wild _ => true
  | IndexError => false
  end.

(** The configuration values [get_targets] reads. *)
Record conf := Conf {
  neutron_control_exchange : string;
  notification_topics : list string
}.

(** [oslo.messaging.Target(topic=..., exchange=...)], with the two
    arguments the code gives it. *)
Record Target := mkTarget {
  target_topic : string;
  target_exchange : string
}.

(** [NetworkNotificationBase.get_targets] (lines 65-74). *)
Definition get_targets (c : conf) : list Target :=
  (λ topic, mkTarget topic (neutron_control_exchange c))
    <$> notification_topics c.

(** The subclasses of [NetworkNotificationBase] that keep the generic
    handler (lines 117-278, [Bandwidth] apart). *)
Definition plugins : list plugin :=
  [Network; Subnet; Port; Router; FloatingIP; Pool; Vip; Member;
   HealthMonitor; Firewall; FirewallPolicy; FirewallRule; VPNService;
   IPSecPolicy; IKEPolicy; IPSecSiteConnection].

(** "network.create.end" with the payload
    {"networks": [{"id": "n1"}, {"name": "x"}, {"id": "n3"}]}: the second
    resource has no id. *)
Definition second_without_id : heap := list_to_map [
  (0, envelope "network.create.end");
  (1, dict [("networks", VRef 2)]);
  (2, OList [VRef 3; VRef 4; VRef 5]);
  (3, dict [("id", VStr "n1")]);
  (4, dict [("name", VStr "x")]);
  (5, dict [("id", VStr "n3")])].

(** "network.update.start" with the payload
    {"network": {"id": "n1", "name": "changed"}}: no top-level id. *)
Definition update_start_no_payload_id : heap := list_to_map [
  (0, envelope "network.update.start");
  (1, dict [("network", VRef 2)]);
  (2, dict [("id", VStr "n1"); ("name", VStr "changed")])].

(** "l3.meter" with the payload {"tenant_id": "p1"}: neither bytes nor
    label_id. *)
Definition meter_without_bytes : heap := list_to_map [
  (0, dict [("event_type", VStr "l3.meter"); ("payload", VRef 1)]);
  (1, dict [("tenant_id", VStr "p1")])].

(** "network.update.start" with the payload {"id": "n1", "network": {}}:
    the resource object is empty. *)
Definition update_start_empty_resource : heap := list_to_map [
  (0, envelope "network.update.start");
  (1, dict [("id", VStr "n1"); ("network", VRef 2)]);
  (2, dict [])].

(** * Properties *)

(** ** The string primitives on examples *)

Example split_create_end :
  str_split "."%char "network.create.end" = ["network"; "create"; "end"].
Proof. reflexivity. Qed.

Example split_empty : str_split "."%char "" = [""].
Proof. reflexivity. Qed.

Example endswith_update_start :
  str_endswith "network.update.start" "update.start" = true
  ∧ str_endswith "network.update.end" "update.start" = false
  ∧ str_endswith "start" "update.start" = false.
Proof. repeat split; reflexivity. Qed.

Example truthy_float : truthy ∅ (VFloat 0%float) = inr false.
Proof. reflexivity. Qed.

Example event_types_network :
  event_types Network
  = ["network.create.end"; "network.update.*"; "network.exists"].
Proof. reflexivity. Qed.

(** ** Reasoning about generators *)

Lemma run_eta {A} (r : run A) : Run (yields r) (result r) (final r) = r.
Proof. by destruct r. Qed.

Lemma gbind_inr {A B} (m : Gen A) (k : A → Gen B) h ys a h1 :
  m h = Run ys (inr a) h1 →
  gbind m k h = Run (ys ++ yields (k a h1)) (result (k a h1)) (final (k a h1)).
Proof. intros E. unfold gbind. by rewrite E. Qed.

Lemma gbind_inl {A B} (m : Gen A) (k : A → Gen B) h ys e h1 :
  m h = Run ys (inl e) h1 → gbind m k h = Run ys (inl e) h1.
Proof. intros E. unfold gbind. by rewrite E. Qed.

Lemma gbind_silent {A B} (m : Gen A) (k : A → Gen B) h a h1 :
  m h = Run [] (inr a) h1 → gbind m k h = k a h1.
Proof. intros E. rewrite (gbind_inr _ _ _ _ _ _ E). apply run_eta. Qed.

Lemma getitem_dict h l d k :
  h !! l = Some (ODict d) →
  getitem h (VRef l) k =
    match d !! k with Some x => inr x | None => inl (KeyError k) end.
Proof. intros E. unfold getitem. by rewrite E. Qed.

Lemma getitem_inr h v k x :
  getitem h v k = inr x →
  ∃ l d, v = VRef l ∧ h !! l = Some (ODict d) ∧ d !! k = Some x.
Proof.
  unfold getitem. intros E.
  destruct v as [| | | | |l]; try discriminate.
  destruct (h !! l) as [[d|xs]|] eqn:El; try discriminate.
  destruct (d !! k) as [y|] eqn:Ek; try discriminate.
  injection E as ->. by exists l, d.
Qed.

Lemma gbind_reading {A B} (f : heap → exn + A) (k : A → Gen B) h :
  gbind (reading f) k h =
    match f h with inl e => Run [] (inl e) h | inr a => k a h end.
Proof.
  unfold gbind, reading; simpl. destruct (f h); [done | apply run_eta].
Qed.

Lemma gbind_writing {A B} (f : heap → exn + (A * heap)) (k : A → Gen B) h :
  gbind (writing f) k h =
    match f h with inl e => Run [] (inl e) h | inr (a, h') => k a h' end.
Proof.
  unfold gbind, writing; simpl.
  destruct (f h) as [e|[a h']]; [done | apply run_eta].
Qed.

Lemma gbind_gret {A B} (a : A) (k : A → Gen B) h : gbind (gret a) k h = k a h.
Proof. unfold gbind, gret; simpl. apply run_eta. Qed.

Lemma gbind_assoc {A B C} (m : Gen A) (k : A → Gen B) (k' : B → Gen C) h :
  gbind (gbind m k) k' h = gbind m (λ a, gbind (k a) k') h.
Proof.
  unfold gbind. destruct (m h) as [ys [e|a] h1]; simpl; [done|].
  destruct (k a h1) as [ys' [e|b] h2]; simpl; [done|].
  by rewrite app_assoc.
Qed.

Lemma gbind_yield {B} (s : Sample) (k : unit → Gen B) h :
  gbind (yield s) k h =
    Run ((s, h) :: yields (k tt h)) (result (k tt h)) (final (k tt h)).
Proof. reflexivity. Qed.

Section bind_steps.
Context {B : Type} (h : heap).

Lemma bind_getitem v k (K : val → Gen B) :
  gbind (Py.getitem v k) K h =
    match getitem h v k with inl e => Run [] (inl e) h | inr x => K x h end.
Proof. exact (gbind_reading (λ h0, getitem h0 v k) K h). Qed.

Lemma bind_get v k (K : val → Gen B) :
  gbind (Py.get v k) K h =
    match dict_get h v k with inl e => Run [] (inl e) h | inr x => K x h end.
Proof. exact (gbind_reading (λ h0, dict_get h0 v k) K h). Qed.

Lemma bind_truthy v (K : bool → Gen B) :
  gbind (Py.truthy v) K h =
    match truthy h v with inl e => Run [] (inl e) h | inr b => K b h end.
Proof. exact (gbind_reading (λ h0, truthy h0 v) K h). Qed.

Lemma bind_endswith v suffix (K : bool → Gen B) :
  gbind (Py.endswith v suffix) K h =
    match endswith v suffix with
    | inl e => Run [] (inl e) h
    | inr b => K b h
    end.
Proof. exact (gbind_reading (λ _, endswith v suffix) K h). Qed.

Lemma bind_split_dot v (K : list string → Gen B) :
  gbind (Py.split_dot v) K h =
    match split_dot v with inl e => Run [] (inl e) h | inr xs => K xs h end.
Proof. exact (gbind_reading (λ _, split_dot v) K h). Qed.

Lemma bind_index xs i (K : string → Gen B) :
  gbind (Py.index xs i) K h =
    match xs !! i with Some x => K x h | None => Run [] (inl IndexError) h end.
Proof. unfold Py.index. rewrite gbind_reading. by destruct (xs !! i). Qed.

Lemma bind_iter v (K : list val → Gen B) :
  gbind (Py.iter v) K h =
    match iter h v with inl e => Run [] (inl e) h | inr xs => K xs h end.
Proof. exact (gbind_reading (λ h0, iter h0 v) K h). Qed.

Lemma bind_setitem v k x (K : unit → Gen B) :
  gbind (Py.setitem v k x) K h =
    match setitem h v k x with
    | inl e => Run [] (inl e) h
    | inr h' => K tt h'
    end.
Proof.
  unfold Py.setitem. rewrite gbind_writing. by destruct (setitem h v k x).
Qed.

Lemma bind_copy v (K : val → Gen B) :
  gbind (Py.copy v) K h =
    match dict_copy h v with
    | inl e => Run [] (inl e) h
    | inr (c, h') => K c h'
    end.
Proof. exact (gbind_writing (λ h0, dict_copy h0 v) K h). Qed.
End bind_steps.

(** One step of a generator applied to a store. *)
Ltac gstep :=
  first [ rewrite gbind_assoc | rewrite bind_getitem | rewrite bind_get | rewrite bind_truthy
        | rewrite bind_endswith | rewrite bind_split_dot | rewrite bind_index
        | rewrite bind_iter | rewrite bind_setitem | rewrite bind_copy
        | rewrite gbind_gret | rewrite gbind_yield ].

(** ** The extraction *)

Lemma dict_get_inr h v k x :
  dict_get h v k = inr x →
  ∃ l d, v = VRef l ∧ h !! l = Some (ODict d) ∧ x = default VNone (d !! k).
Proof.
  unfold dict_get. intros E.
  destruct v as [| | | | |l]; try discriminate.
  destruct (h !! l) as [[d|xs]|] eqn:El; try discriminate.
  injection E as <-. by exists l, d.
Qed.

Lemma dict_get_dict h l d k :
  h !! l = Some (ODict d) → dict_get h (VRef l) k = inr (default VNone (d !! k)).
Proof. intros E. unfold dict_get. by rewrite E. Qed.

Lemma truthy_ref_true h l :
  truthy h (VRef l) = inr true →
  (∃ d, h !! l = Some (ODict d) ∧ d ≠ ∅)
  ∨ (∃ xs, h !! l = Some (OList xs) ∧ xs ≠ []).
Proof.
  unfold truthy. destruct (h !! l) as [[d|xs]|]; intros E; try discriminate.
  - left. exists d. split; [done|]. injection E as E.
    apply negb_true_iff, bool_decide_eq_false in E. done.
  - right. exists xs. split; [done|]. injection E as E.
    apply negb_true_iff, bool_decide_eq_false in E. by destruct xs.
Qed.

Lemma setitem_inr h v k x h' :
  setitem h v k x = inr h' →
  ∃ l d, v = VRef l ∧ h !! l = Some (ODict d)
         ∧ h' = <[l := ODict (<[k := x]> d)]> h.
Proof.
  unfold setitem. intros E.
  destruct v as [| | | | |l]; try discriminate.
  destruct (h !! l) as [[d|xs]|] eqn:El; try discriminate.
  injection E as <-. by exists l, d.
Qed.


(** The extraction yields nothing, and leaves the store alone when it
    raises. *)
Lemma extract_raises self message h e :
  result (NetworkNotificationBase.extract self message h) = inl e →
  NetworkNotificationBase.extract self message h = Run [] (inl e) h.
Proof.
  unfold NetworkNotificationBase.extract.
  gstep. destruct (getitem h message "payload") as [e1|payload] eqn:Hp;
    [by intros [= ->]|].
  gstep. destruct (dict_get h payload _) as [e1|resource];
    [by intros [= ->]|].
  gstep. destruct (truthy h resource) as [e1|[]]; [by intros [= ->]| |].
  - gstep. destruct (getitem h message "event_type") as [e1|et];
      [by intros [= ->]|].
    gstep. destruct (endswith et _) as [e1|[]]; [by intros [= ->]| |].
    + do 2 gstep. rewrite Hp.
      do 2 gstep. destruct (getitem h payload "id") as [e1|id];
        [by intros [= ->]|].
      gstep. destruct (setitem h resource "id" id) as [e1|h'];
        [by intros [= ->]|].
      discriminate.
    + gstep. discriminate.
  - gstep. rewrite Hp.
    gstep. destruct (dict_get h payload _) as [e1|held]; [by intros [= ->]|].
    discriminate.
Qed.

Lemma extract_returns self message h rs :
  result (NetworkNotificationBase.extract self message h) = inr rs →
  ∃ lm h', message = VRef lm ∧ extracts self h lm rs h'
           ∧ NetworkNotificationBase.extract self message h = Run [] (inr rs) h'.
Proof.
  unfold NetworkNotificationBase.extract.
  gstep. destruct (getitem h message "payload") as [e1|payload] eqn:Hp; [discriminate|].
  apply getitem_inr in Hp as (lm & m & -> & Hm & Hpay).
  gstep. destruct (dict_get h payload _) as [e1|resource] eqn:Hr; [discriminate|].
  apply dict_get_inr in Hr as (lp & dp & -> & Hlp & ->).
  gstep. destruct (truthy h _) as [e1|[]] eqn:Ht; [discriminate| |].
  - gstep. destruct (getitem h (VRef lm) "event_type") as [e1|ev] eqn:He; [discriminate|].
    rewrite (getitem_dict _ _ _ _ Hm) in He.
    destruct (m !! "event_type") as [ev'|] eqn:Hev; [|discriminate].
    injection He as ->.
    gstep. destruct ev as [| | | |et|]; try discriminate. simpl.
    destruct (str_endswith et "update.start") eqn:Hend.
    + do 2 gstep. rewrite (getitem_dict _ _ _ _ Hm), Hpay.
      do 2 gstep. rewrite (getitem_dict _ _ _ _ Hlp).
      destruct (dp !! "id") as [v|] eqn:Hid; [|discriminate].
      gstep. destruct (setitem h _ "id" v) as [e1|h'] eqn:Hs; [discriminate|].
      apply setitem_inr in Hs as (lr & d & Hres & Hlr & ->).
      rewrite Hres in *. 
      destruct (dp !! resource_name self) as [r|] eqn:Hname; simpl in Hres; [|done].
      subst r.
      apply truthy_ref_true in Ht as [(d' & Hd' & Hne)|(xs & Hxs & _)]; [|congruence].
      assert (d' = d) as -> by congruence.
      intros [= <-]. exists lm, (<[lr := ODict (<["id" := v]> d)]> h).
      split; [done|]. split; [|done]. by eapply extracts_backfill.
    + gstep. intros [= <-]. exists lm, h.
      split; [done|]. split; [|done]. by eapply extracts_single.
  - gstep. rewrite (getitem_dict _ _ _ _ Hm), Hpay.
    gstep. rewrite (dict_get_dict _ _ _ _ Hlp).
    intros [= <-]. exists lm, h.
    split; [done|]. split; [|done]. by eapply extracts_plural.
Qed.

Lemma truthy_dict_nonempty h l d :
  h !! l = Some (ODict d) → d ≠ ∅ → truthy h (VRef l) = inr true.
Proof.
  intros E Hne. unfold truthy. rewrite E. by rewrite bool_decide_eq_false_2.
Qed.

Lemma setitem_dict h l d k x :
  h !! l = Some (ODict d) →
  setitem h (VRef l) k x = inr (<[l := ODict (<[k := x]> d)]> h).
Proof. intros E. unfold setitem. by rewrite E. Qed.

(** Conversely, each case of [extracts] is what the code does. *)
Lemma extract_complete self h lm rs h' :
  extracts self h lm rs h' →
  NetworkNotificationBase.extract self (VRef lm) h = Run [] (inr rs) h'.
Proof.
  intros Hx. unfold NetworkNotificationBase.extract.
  destruct Hx as [m lp dp Hm Hpay Hlp Ht
                 |m lp dp et Hm Hpay Hlp Ht Hev Hend
                 |m lp dp et lr d v Hm Hpay Hlp Hname Hlr Hne Hev Hend Hid].
  - gstep. rewrite (getitem_dict _ _ _ _ Hm), Hpay.
    gstep. rewrite (dict_get_dict _ _ _ _ Hlp).
    gstep. rewrite Ht.
    gstep. rewrite (getitem_dict _ _ _ _ Hm), Hpay.
    gstep. by rewrite (dict_get_dict _ _ _ _ Hlp).
  - gstep. rewrite (getitem_dict _ _ _ _ Hm), Hpay.
    gstep. rewrite (dict_get_dict _ _ _ _ Hlp).
    gstep. rewrite Ht.
    gstep. rewrite (getitem_dict _ _ _ _ Hm), Hev.
    gstep. simpl. rewrite Hend. by gstep.
  - gstep. rewrite (getitem_dict _ _ _ _ Hm), Hpay.
    gstep. rewrite (dict_get_dict _ _ _ _ Hlp), Hname. simpl.
    gstep. rewrite (truthy_dict_nonempty _ _ _ Hlr Hne).
    gstep. rewrite (getitem_dict _ _ _ _ Hm), Hev.
    gstep. simpl. rewrite Hend.
    do 2 gstep. rewrite (getitem_dict _ _ _ _ Hm), Hpay.
    do 2 gstep. rewrite (getitem_dict _ _ _ _ Hlp), Hid.
    gstep. by rewrite (setitem_dict _ _ _ _ _ Hlr).
Qed.

Lemma extract_yields_nothing self message h :
  yields (NetworkNotificationBase.extract self message h) = [].
Proof.
  destruct (result (NetworkNotificationBase.extract self message h))
    as [e|rs] eqn:E.
  - by rewrite (extract_raises _ _ _ _ E).
  - apply extract_returns in E as (lm & h' & _ & _ & ->). done.
Qed.

(** ** One turn of the loop *)

Lemma at_resource_lookup c m h x :
  at_resource c m h x !! c = Some (ODict (<["payload" := x]> m)).
Proof. apply lookup_insert_eq. Qed.

Lemma getitem_copy c m h x k :
  k ≠ "payload" →
  getitem (at_resource c m h x) (VRef c) k =
    match m !! k with Some y => inr y | None => inl (KeyError k) end.
Proof.
  intros Hk. rewrite (getitem_dict _ _ _ _ (at_resource_lookup c m h x)).
  by rewrite lookup_insert_ne.
Qed.

(** The loop body is [emit_one_outcome], every sample being yielded in the
    store [at_resource]. *)
Lemma emit_one_run self c m h x :
  h !! c = Some (ODict m) →
  NetworkNotificationBase.emit_one self (VRef c) x h =
    let hx := at_resource c m h x in
    let o := emit_one_outcome self c m h x in
    Run ((λ s, (s, hx)) <$> o.1) o.2 hx.
Proof.
  intros Hc. unfold NetworkNotificationBase.emit_one, emit_one_outcome.
  gstep. rewrite (setitem_dict _ _ _ _ _ Hc). fold (at_resource c m h x).
  gstep. rewrite getitem_copy by done.
  destruct (m !! "_context_user_id") as [u|] eqn:Hu; [|done].
  gstep. rewrite getitem_copy by done.
  destruct (m !! "_context_tenant_id") as [p|] eqn:Hp; [|done].
  gstep. destruct (getitem (at_resource c m h x) x "id") as [e|i] eqn:Hi;
    [done|].
  gstep.
  gstep. rewrite getitem_copy by done.
  destruct (m !! "event_type") as [ev|]; [|done].
  gstep. destruct (split_dot ev) as [e|sp]; [done|].
  destruct (2 <? length sp); [|done].
  gstep. destruct (sp !! 1) as [ph|]; [|done].
  gstep. rewrite getitem_copy, Hu by done.
  gstep. rewrite getitem_copy, Hp by done.
  gstep. rewrite Hi. done.
Qed.

(** ** The loop and the whole handler *)

Lemma at_resource_again c m m' h x :
  (∀ y, <["payload" := y]> m' = <["payload" := y]> m) →
  at_resource c m' (<[c := ODict m']> h) x = at_resource c m h x.
Proof.
  intros Hm. unfold at_resource. by rewrite insert_insert_eq, Hm.
Qed.

Lemma emit_one_outcome_again self c m m' h x :
  (∀ y, <["payload" := y]> m' = <["payload" := y]> m) →
  emit_one_outcome self c m' (<[c := ODict m']> h) x =
    emit_one_outcome self c m h x.
Proof.
  intros Hm.
  assert (Hk : ∀ k, k ≠ "payload" → m' !! k = m !! k).
  { intros k Hk. rewrite <-(lookup_insert_ne m' "payload" k VNone) by done.
    rewrite Hm. by rewrite lookup_insert_ne. }
  unfold emit_one_outcome. rewrite (at_resource_again _ _ _ _ _ Hm).
  by rewrite !Hk.
Qed.

Lemma for_each_run self c m h xs :
  ∀ m', (∀ y, <["payload" := y]> m' = <["payload" := y]> m) →
  for_each xs (NetworkNotificationBase.emit_one self (VRef c))
    (<[c := ODict m']> h)
  = emit_loop_outcome self c m h (<[c := ODict m']> h) xs.
Proof.
  induction xs as [|x xs IH]; intros m' Hm; [done|].
  cbn [for_each emit_loop_outcome].
  unfold gbind at 1.
  rewrite (emit_one_run self c m' _ x) by apply lookup_insert_eq.
  cbv zeta. rewrite (at_resource_again _ _ _ _ _ Hm).
  rewrite (emit_one_outcome_again _ _ _ _ _ _ Hm).
  cbn [result yields final].
  destruct (emit_one_outcome self c m h x).2 as [e|[]]; [done|].
  unfold at_resource.
  rewrite (IH (<["payload" := x]> m)); [done|].
  intros y. by rewrite insert_insert_eq.
Qed.

Lemma dict_copy_dict h l d :
  h !! l = Some (ODict d) →
  dict_copy h (VRef l) =
    inr (VRef (fresh (dom h)), <[fresh (dom h) := ODict d]> h).
Proof. intros E. unfold dict_copy. by rewrite E. Qed.

Lemma fresh_loc_unused (h : heap) : h !! fresh (dom h) = None.
Proof. apply not_elem_of_dom, is_fresh. Qed.

(** Lines 91-114 for a message that is a dict with the items [m]: one
    copy at a new location, then the loop. *)
Lemma emit_run self lm rs h m :
  h !! lm = Some (ODict m) →
  NetworkNotificationBase.emit self (VRef lm) rs h =
    let c := fresh (dom h) in
    let g := <[c := ODict m]> h in
    match result (iter_resources rs g) with
    | inl e => Run [] (inl e) g
    | inr xs => emit_loop_outcome self c m h g xs
    end.
Proof.
  intros Hm. unfold NetworkNotificationBase.emit.
  gstep. rewrite (dict_copy_dict _ _ _ Hm). cbv zeta.
  destruct rs as [xs|v]; cbn [iter_resources].
  - gstep. cbn [gret result]. by apply for_each_run.
  - gstep. unfold Py.iter, reading. cbn [result].
    destruct (iter _ v) as [e|xs]; [done|]. by apply for_each_run.
Qed.

(** The whole handler, once the extraction has returned. *)
Lemma process_notification_run self lm h rs h' :
  NetworkNotificationBase.extract self (VRef lm) h = Run [] (inr rs) h' →
  NetworkNotificationBase.process_notification self (VRef lm) h =
    NetworkNotificationBase.emit self (VRef lm) rs h'.
Proof.
  intros E. unfold NetworkNotificationBase.process_notification.
  by rewrite (gbind_silent _ _ _ _ _ E).
Qed.

Lemma process_notification_raises self message h e :
  result (NetworkNotificationBase.extract self message h) = inl e →
  NetworkNotificationBase.process_notification self message h =
    Run [] (inl e) h.
Proof.
  intros E. unfold NetworkNotificationBase.process_notification.
  by rewrite (gbind_inl _ _ _ _ _ _ (extract_raises _ _ _ _ E)).
Qed.

Lemma iter_frame h v xs c o :
  iter h v = inr xs → h !! c = None → iter (<[c := o]> h) v = inr xs.
Proof.
  unfold iter. intros E Hc.
  destruct v as [| | | | |l]; try done.
  destruct (h !! l) as [ob|] eqn:El; [|done].
  rewrite lookup_insert_ne by (intros ->; congruence).
  by rewrite El.
Qed.

Lemma iter_resources_frame rs h xs c o :
  result (iter_resources rs h) = inr xs → h !! c = None →
  result (iter_resources rs (<[c := o]> h)) = inr xs.
Proof.
  destruct rs as [ys|v]; [done|].
  cbn. intros E Hc. by apply iter_frame.
Qed.

(** What the extraction leaves of the message: the same items, except
    possibly "id". *)
Lemma extracts_message self h lm rs h' m :
  extracts self h lm rs h' → h !! lm = Some (ODict m) →
  ∃ m', h' !! lm = Some (ODict m') ∧ ∀ k, k ≠ "id" → m' !! k = m !! k.
Proof.
  intros Hx Hm.
  destruct Hx as [| |m0 lp dp et lr d v _ _ _ _ Hlr _ _ _ _]; [by exists m..|].
  destruct (decide (lm = lr)) as [->|Hne].
  - assert (d = m) as -> by congruence.
    exists (<["id" := v]> m). split; [apply lookup_insert_eq|].
    intros k Hk. by rewrite lookup_insert_ne.
  - exists m. by rewrite lookup_insert_ne.
Qed.

(** ** C1: a payload with neither key *)

(** C1 (what the code does): when the payload holds neither
    [resource_name] nor [resource_name + "s"], the handler yields no sample
    and raises TypeError: the plural lookup gives None, and the loop cannot
    iterate over None. *)
Theorem C1_neither_key_raises_TypeError
    (self : plugin) (h : heap) (lm lp : loc) (m dp : gmap string val) :
  h !! lm = Some (ODict m) →
  m !! "payload" = Some (VRef lp) →
  h !! lp = Some (ODict dp) →
  dp !! resource_name self = None →
  dp !! (resource_name self +:+ "s") = None →
  let r := NetworkNotificationBase.process_notification self (VRef lm) h in
  yields r = [] ∧ result r = inl TypeError.
Proof.
  intros Hm Hpay Hlp Hone Hmany r. subst r.
  assert (Hx : extracts self h lm (Held VNone) h).
  { pose proof (extracts_plural self h lm m lp dp Hm Hpay Hlp) as Hx.
    rewrite Hone, Hmany in Hx. by apply Hx. }
  rewrite (process_notification_run _ _ _ _ _ (extract_complete _ _ _ _ _ Hx)).
  by rewrite (emit_run _ _ _ _ _ Hm).
Qed.

(** The empty payload {} of a "network.create.end" message, through C1. *)
Lemma C1_empty_payload_raises :
  let r := NetworkNotificationBase.process_notification Network (VRef 0)
             empty_payload in
  yields r = [] ∧ result r = inl TypeError.
Proof.
  apply (C1_neither_key_raises_TypeError Network empty_payload 0 1
           (list_to_map [("event_type", VStr "network.create.end");
                         ("payload", VRef 1);
                         ("_context_user_id", VStr "u1");
                         ("_context_tenant_id", VStr "p1")])
           ∅);
    reflexivity.
Defined.

(** ** The bandwidth handler *)

(** C7: one DELTA sample named "bandwidth", in "B", whose volume,
    project_id and resource_id are the payload's [bytes], [tenant_id] and
    [label_id], with no user; the store is left as it was. *)
Theorem C7_bandwidth_one_delta_sample
    (h : heap) (lm lp : loc) (m p : gmap string val) (b t l : val) :
  h !! lm = Some (ODict m) →
  m !! "payload" = Some (VRef lp) →
  h !! lp = Some (ODict p) →
  p !! "bytes" = Some b →
  p !! "tenant_id" = Some t →
  p !! "label_id" = Some l →
  Bandwidth.process_notification (VRef lm) h =
    Run [(mkSample "bandwidth" TYPE_DELTA "B" b VNone t l (VRef lm), h)]
        (inr tt) h.
Proof.
  intros Hm Hpay Hp Hb Ht Hl.
  unfold Bandwidth.process_notification.
  rewrite !bind_getitem, !(getitem_dict _ _ _ _ Hm), Hpay.
  rewrite !bind_getitem, !(getitem_dict _ _ _ _ Hp), Hb.
  rewrite !bind_getitem, !(getitem_dict _ _ _ _ Hm), Hpay.
  rewrite !bind_getitem, !(getitem_dict _ _ _ _ Hp), Ht.
  rewrite !bind_getitem, !(getitem_dict _ _ _ _ Hm), Hpay.
  rewrite !bind_getitem, !(getitem_dict _ _ _ _ Hp), Hl.
  reflexivity.
Qed.

(** Scenario C of the spec, through C7. *)
Lemma C7_scenario_C :
  Bandwidth.process_notification (VRef 0) scenario_C =
    Run [(mkSample "bandwidth" TYPE_DELTA "B" (VInt 4096) VNone
            (VStr "p1") (VStr "lbl1") (VRef 0), scenario_C)]
        (inr tt) scenario_C.
Proof.
  apply (C7_bandwidth_one_delta_sample scenario_C 0 1
           (list_to_map [("event_type", VStr "l3.meter"); ("payload", VRef 1)])
           (list_to_map [("bytes", VInt 4096); ("tenant_id", VStr "p1");
                         ("label_id", VStr "lbl1")]));
    reflexivity.
Defined.

(** ** C4: the tenant field *)

Lemma getitem_key_error h v k k' :
  getitem h v k = inl (KeyError k') → k' = k.
Proof.
  unfold getitem. destruct v as [| | | | |l]; try done.
  destruct (h !! l) as [[d|xs]|]; try done.
  destruct (d !! k); [done|]. by intros [= ->].
Qed.

(** A KeyError raised by the extraction names one of the keys it
    subscripts with. *)
Lemma extract_key_error self message h k :
  result (NetworkNotificationBase.extract self message h) = inl (KeyError k) →
  k = "payload" ∨ k = "event_type" ∨ k = "id".
Proof.
  unfold NetworkNotificationBase.extract.
  gstep. destruct (getitem h message "payload") as [e1|payload] eqn:Hp.
  { intros [= ->]. apply getitem_key_error in Hp. auto. }
  gstep. unfold dict_get at 1.
  destruct payload as [| | | | |lp]; try done.
  destruct (h !! lp) as [[dp|?]|] eqn:Hlp; try done.
  gstep. destruct (truthy h _) as [e1|[]] eqn:Ht.
  { unfold truthy in Ht. repeat case_match; simplify_eq; done. }
  - gstep. destruct (getitem h message "event_type") as [e1|et] eqn:He.
    { intros [= ->]. apply getitem_key_error in He. auto. }
    gstep. destruct et as [| | | |et|]; try done. cbn [endswith].
    destruct (str_endswith et "update.start").
    + do 2 gstep. rewrite Hp.
      do 2 gstep. destruct (getitem h (VRef lp) "id") as [e1|id] eqn:Hid.
      { intros [= ->]. apply getitem_key_error in Hid. auto. }
      gstep. unfold setitem. repeat case_match; simplify_eq; done.
    + by gstep.
  - gstep. rewrite Hp. gstep. unfold dict_get. by rewrite Hlp.
Qed.

Lemma emit_one_outcome_tenant_error self c m h x :
  (emit_one_outcome self c m h x).2 = inl (KeyError "_context_tenant_id") →
  m !! "_context_tenant_id" = None.
Proof.
  unfold emit_one_outcome.
  destruct (m !! "_context_user_id"); [|done].
  destruct (m !! "_context_tenant_id"); [|done].
  destruct (getitem _ x "id") as [e|i] eqn:Hi.
  { intros [= ->]. by apply getitem_key_error in Hi. }
  destruct (m !! "event_type") as [ev|]; [|done].
  destruct ev; try done. cbn [split_dot].
  destruct (2 <? _); [|done]. by destruct (_ !! 1).
Qed.

Lemma emit_loop_tenant_error self c m h xs :
  ∀ cur,
  result (emit_loop_outcome self c m h cur xs)
    = inl (KeyError "_context_tenant_id") →
  m !! "_context_tenant_id" = None.
Proof.
  induction xs as [|x xs IH]; intros cur; [done|].
  cbn [emit_loop_outcome]. cbv zeta.
  destruct (emit_one_outcome self c m h x).2 as [e|[]] eqn:Ho.
  - intros [= ->]. by eapply emit_one_outcome_tenant_error.
  - apply IH.
Qed.

Lemma iter_resources_key_error rs h k :
  result (iter_resources rs h) ≠ inl (KeyError k).
Proof.
  destruct rs as [xs|v]; [done|].
  cbn. unfold iter. repeat case_match; done.
Qed.

(** C4 as stated fails: a message without the tenant field whose payload
    holds an empty collection is handled without any error, since the field
    is only read once per resource. *)
Lemma C4_no_resource_no_error :
  getitem no_tenant_no_resource (VRef 0) "_context_tenant_id"
    = inl (KeyError "_context_tenant_id")
  ∧ yields (NetworkNotificationBase.process_notification Network (VRef 0)
              no_tenant_no_resource) = []
  ∧ result (NetworkNotificationBase.process_notification Network (VRef 0)
              no_tenant_no_resource) = inr tt.
Proof. by vm_compute. Qed.

(** C4, amended: for a message without the tenant field, as soon as the
    extraction gives at least one resource the handler raises KeyError
    before any sample is yielded (for the user field if that is missing
    too, for the tenant field otherwise); for a message with the tenant
    field, the handler never raises KeyError for it. *)
Theorem C4_tenant_field
    (self : plugin) (h : heap) (lm : loc) (m : gmap string val) :
  h !! lm = Some (ODict m) →
  let r := NetworkNotificationBase.process_notification self (VRef lm) h in
  (m !! "_context_tenant_id" = None →
   ∀ rs h' x xs,
     NetworkNotificationBase.extract self (VRef lm) h = Run [] (inr rs) h' →
     result (iter_resources rs h') = inr (x :: xs) →
     yields r = []
     ∧ result r = inl (KeyError (match m !! "_context_user_id" with
                                 | Some _ => "_context_tenant_id"
                                 | None => "_context_user_id"
                                 end)))
  ∧ (is_Some (m !! "_context_tenant_id") →
     result r ≠ inl (KeyError "_context_tenant_id")).
Proof.
  intros Hm r. subst r. split.
  - intros Hnone rs h' x xs Hex Hit.
    assert (Hx : extracts self h lm rs h').
    { assert (E : result (NetworkNotificationBase.extract self (VRef lm) h)
                  = inr rs) by (by rewrite Hex).
      apply extract_returns in E as (lm' & h'' & [= <-] & Hx & E).
      rewrite Hex in E. by injection E as <-. }
    destruct (extracts_message _ _ _ _ _ _ Hx Hm) as (m' & Hm' & Hsame).
    rewrite (process_notification_run _ _ _ _ _ Hex).
    rewrite (emit_run _ _ _ _ _ Hm'). cbv zeta.
    rewrite (iter_resources_frame _ _ _ _ _ Hit (fresh_loc_unused h')).
    cbn [emit_loop_outcome]. cbv zeta. unfold emit_one_outcome.
    rewrite !Hsame by done. rewrite Hnone.
    by destruct (m !! "_context_user_id").
  - intros [t Ht] Hres.
    unfold NetworkNotificationBase.process_notification in Hres.
    destruct (result (NetworkNotificationBase.extract self (VRef lm) h))
      as [e|rs] eqn:E.
    + rewrite (gbind_inl _ _ _ _ _ _ (extract_raises _ _ _ _ E)) in Hres.
      injection Hres as ->.
      apply extract_key_error in E as [E|[E|E]]; discriminate.
    + apply extract_returns in E as (lm' & h' & [= <-] & Hx & E).
      rewrite (gbind_silent _ _ _ _ _ E) in Hres.
      destruct (extracts_message _ _ _ _ _ _ Hx Hm) as (m' & Hm' & Hsame).
      rewrite (emit_run _ _ _ _ _ Hm') in Hres. cbv zeta in Hres.
      destruct (result (iter_resources rs _)) as [e|xs] eqn:Hit.
      * injection Hres as ->. by apply iter_resources_key_error in Hit.
      * apply emit_loop_tenant_error in Hres.
        rewrite Hsame in Hres by done. congruence.
Qed.

(** Scenario A with and without the tenant field, through C4. *)
Lemma C4_scenario_A_tenant :
  (yields (NetworkNotificationBase.process_notification Network (VRef 0)
             scenario_A_no_tenant) = []
   ∧ result (NetworkNotificationBase.process_notification Network (VRef 0)
               scenario_A_no_tenant)
     = inl (KeyError "_context_tenant_id"))
  ∧ result (NetworkNotificationBase.process_notification Network (VRef 0)
              scenario_A)
    ≠ inl (KeyError "_context_tenant_id").
Proof.
  split.
  - apply (proj1 (C4_tenant_field Network scenario_A_no_tenant 0
             (list_to_map [("event_type", VStr "network.create.end");
                           ("payload", VRef 1);
                           ("_context_user_id", VStr "u1")])
             eq_refl) eq_refl (Display [VRef 2]) scenario_A_no_tenant
             (VRef 2) []); reflexivity.
  - apply (proj2 (C4_tenant_field Network scenario_A 0
             (list_to_map [("event_type", VStr "network.create.end");
                           ("payload", VRef 1);
                           ("_context_user_id", VStr "u1");
                           ("_context_tenant_id", VStr "p1")])
             eq_refl)).
    by exists (VStr "p1").
Defined.

(** ** C2: the samples of each resource *)

Lemma getitem_frame h v k x c o :
  getitem h v k = inr x → h !! c = None → getitem (<[c := o]> h) v k = inr x.
Proof.
  intros E Hc. apply getitem_inr in E as (l & d & -> & Hl & Hk).
  rewrite (getitem_dict _ l d).
  - by rewrite Hk.
  - rewrite lookup_insert_ne; [done|]. intros ->. congruence.
Qed.

Lemma emit_one_outcome_ok self c m h x u p et i :
  m !! "_context_user_id" = Some u →
  m !! "_context_tenant_id" = Some p →
  m !! "event_type" = Some (VStr et) →
  getitem (at_resource c m h x) x "id" = inr i →
  emit_one_outcome self c m h x
    = (samples_of_resource self et u p i (VRef c), inr tt).
Proof.
  intros Hu Hp He Hi. unfold emit_one_outcome, samples_of_resource.
  rewrite Hu, Hp, Hi, He. cbn [split_dot]. cbv zeta.
  destruct (2 <? length (str_split "." et)) eqn:Hlen; [|done].
  destruct (str_split "." et !! 1) as [ph|] eqn:Hph; [done|].
  apply Nat.ltb_lt in Hlen. apply lookup_ge_None in Hph. lia.
Qed.

Lemma emit_loop_ok self c m h u p et :
  m !! "_context_user_id" = Some u →
  m !! "_context_tenant_id" = Some p →
  m !! "event_type" = Some (VStr et) →
  ∀ xs ids cur,
  Forall2 (λ x i, getitem (at_resource c m h x) x "id" = inr i) xs ids →
  let r := emit_loop_outcome self c m h cur xs in
  result r = inr tt
  ∧ (yields r).*1
    = concat ((λ i, samples_of_resource self et u p i (VRef c)) <$> ids).
Proof.
  intros Hu Hp He xs ids cur Hids. revert cur.
  induction Hids as [|x i xs ids Hi _ IH]; intros cur; [done|].
  cbn [emit_loop_outcome]. cbv zeta.
  rewrite (emit_one_outcome_ok _ _ _ _ _ _ _ _ _ Hu Hp He Hi).
  cbn [fst snd result yields].
  destruct (IH (at_resource c m h x)) as [Hres Hys].
  split; [done|].
  rewrite fmap_app, Hys, <-list_fmap_compose.
  cbn [fmap list_fmap concat]. f_equal.
  by rewrite list_fmap_id.
Qed.

(** C2: when the message copy holds both context fields and a string
    event type, and every extracted resource has an "id", the handler ends
    normally and yields, resource by resource and in order, exactly the
    samples of [samples_of_resource]: one gauge sample, followed by one
    DELTA sample iff the event type has more than two segments. *)
Theorem C2_samples_per_resource
    (self : plugin) (h h' : heap) (lm : loc) (rs : resources)
    (m : gmap string val) (u p : val) (et : string)
    (xs ids : list val) :
  NetworkNotificationBase.extract self (VRef lm) h = Run [] (inr rs) h' →
  h' !! lm = Some (ODict m) →
  m !! "_context_user_id" = Some u →
  m !! "_context_tenant_id" = Some p →
  m !! "event_type" = Some (VStr et) →
  result (iter_resources rs h') = inr xs →
  Forall2 (λ x i, getitem h' x "id" = inr i) xs ids →
  let r := NetworkNotificationBase.process_notification self (VRef lm) h in
  result r = inr tt
  ∧ (yields r).*1
    = concat ((λ i, samples_of_resource self et u p i
                      (VRef (fresh (dom h')))) <$> ids).
Proof.
  intros Hex Hm Hu Hp He Hit Hids r. subst r.
  rewrite (process_notification_run _ _ _ _ _ Hex).
  rewrite (emit_run _ _ _ _ _ Hm). cbv zeta.
  rewrite (iter_resources_frame _ _ _ _ _ Hit (fresh_loc_unused h')).
  apply (emit_loop_ok _ _ _ _ _ _ _ Hu Hp He).
  eapply Forall2_impl; [exact Hids|].
  intros x i Hi. cbn beta in *. unfold at_resource.
  by apply getitem_frame, fresh_loc_unused.
Qed.

(** Scenario A (two samples for "n1") through C2. *)
Lemma C2_scenario_A :
  let r := NetworkNotificationBase.process_notification Network (VRef 0)
             scenario_A in
  result r = inr tt
  ∧ (yields r).*1
    = [mkSample "network" TYPE_GAUGE "network" (VInt 1)
         (VStr "u1") (VStr "p1") (VStr "n1") (VRef 3);
       mkSample "network.create" TYPE_DELTA "network" (VInt 1)
         (VStr "u1") (VStr "p1") (VStr "n1") (VRef 3)].
Proof.
  apply (C2_samples_per_resource Network scenario_A scenario_A 0
           (Display [VRef 2])
           (list_to_map [("event_type", VStr "network.create.end");
                         ("payload", VRef 1);
                         ("_context_user_id", VStr "u1");
                         ("_context_tenant_id", VStr "p1")])
           (VStr "u1") (VStr "p1") "network.create.end"
           [VRef 2] [VStr "n1"]); try reflexivity.
  repeat constructor.
Defined.

(** ** C3: the resource_id of a sample *)

(** Every sample of one turn of the loop refers to the copy at [c] and
    carries the context fields of [m] and the "id" item of [x]. *)
Lemma emit_one_outcome_samples self c m h x s :
  s ∈ (emit_one_outcome self c m h x).1 →
  sample_message s = VRef c
  ∧ getitem (at_resource c m h x) x "id" = inr (sample_resource_id s)
  ∧ m !! "_context_user_id" = Some (sample_user_id s)
  ∧ m !! "_context_tenant_id" = Some (sample_project_id s).
Proof.
  unfold emit_one_outcome.
  destruct (m !! "_context_user_id") as [u|]; [|by intros ?%elem_of_nil].
  destruct (m !! "_context_tenant_id") as [p|]; [|by intros ?%elem_of_nil].
  destruct (getitem _ x "id") as [e|i]; [by intros ?%elem_of_nil|].
  cbv zeta.
  assert (G : ∀ n t, s = from_notification n t (unit_value self)
                          (VInt 1) u p i (VRef c) →
              sample_message s = VRef c
              ∧ @inr exn val i = inr (sample_resource_id s)
              ∧ Some u = Some (sample_user_id s)
              ∧ Some p = Some (sample_project_id s))
    by (by intros n t ->).
  destruct (m !! "event_type") as [ev|];
    [|intros ->%list_elem_of_singleton; by eapply G].
  destruct (split_dot ev) as [e|sp];
    [intros ->%list_elem_of_singleton; by eapply G|].
  destruct (2 <? length sp);
    [|intros ->%list_elem_of_singleton; by eapply G].
  destruct (sp !! 1) as [ph|];
    [|intros ->%list_elem_of_singleton; by eapply G].
  cbn [fst]. intros [->|Hs%list_elem_of_singleton]%elem_of_cons;
    [|subst s]; by eapply G.
Qed.

(** What holds of every yield of the loop, whatever the resources. *)
Lemma emit_loop_yields self c m h xs :
  ∀ cur,
  Forall (λ y, ∃ x, x ∈ xs ∧ y.2 = at_resource c m h x
                    ∧ y.1 ∈ (emit_one_outcome self c m h x).1)
         (yields (emit_loop_outcome self c m h cur xs)).
Proof.
  induction xs as [|x xs IH]; intros cur; [by constructor|].
  cbn [emit_loop_outcome]. cbv zeta.
  assert (Hx : Forall (λ y, ∃ x0, x0 ∈ x :: xs ∧ y.2 = at_resource c m h x0
                            ∧ y.1 ∈ (emit_one_outcome self c m h x0).1)
                 ((λ s, (s, at_resource c m h x))
                    <$> (emit_one_outcome self c m h x).1)).
  { apply Forall_fmap, Forall_forall. intros s Hs. exists x.
    split; [left|done]. }
  destruct (emit_one_outcome self c m h x).2 as [e|[]]; [done|].
  cbn [yields]. apply Forall_app. split; [done|].
  eapply Forall_impl; [apply IH|].
  intros y (x0 & Hin & Hy). exists x0. split; [by right|done].
Qed.

(** Every yield of the handler comes from one turn of the loop over the
    copy made at the first free location of the store the extraction
    left. *)
Lemma process_notification_yields self lm h rs h' m :
  NetworkNotificationBase.extract self (VRef lm) h = Run [] (inr rs) h' →
  h' !! lm = Some (ODict m) →
  Forall (λ y, ∃ x, y.2 = at_resource (fresh (dom h')) m h' x
                    ∧ y.1 ∈ (emit_one_outcome self (fresh (dom h')) m h' x).1)
         (yields (NetworkNotificationBase.process_notification self
                    (VRef lm) h)).
Proof.
  intros Hex Hm.
  rewrite (process_notification_run _ _ _ _ _ Hex).
  rewrite (emit_run _ _ _ _ _ Hm). cbv zeta.
  destruct (result (iter_resources rs _)) as [e|xs]; [by constructor|].
  eapply Forall_impl; [apply emit_loop_yields|].
  intros y (x & _ & Hy). by exists x.
Qed.

(** The handler yields nothing unless the extraction returned, and then
    the message is a dict in the store the extraction left. *)
Lemma process_notification_cases self message h :
  yields (NetworkNotificationBase.process_notification self message h) = []
  ∨ ∃ lm rs h' m,
      message = VRef lm
      ∧ NetworkNotificationBase.extract self (VRef lm) h = Run [] (inr rs) h'
      ∧ h' !! lm = Some (ODict m).
Proof.
  destruct (result (NetworkNotificationBase.extract self message h))
    as [e|rs] eqn:E.
  - left. by rewrite (process_notification_raises _ _ _ _ E).
  - right. apply extract_returns in E as (lm & h' & -> & Hx & E).
    assert (∃ m0, h !! lm = Some (ODict m0)) as [m0 Hm0]
      by (destruct Hx; eauto).
    destruct (extracts_message _ _ _ _ _ _ Hx Hm0) as (m & Hm & _).
    by exists lm, rs, h', m.
Qed.

(** C3 as stated fails: a resource whose "id" is the empty string gets its
    sample, with the empty string as resource_id. *)
Lemma C3_empty_resource_id_emitted :
  (yields (NetworkNotificationBase.process_notification Network (VRef 0)
             empty_id_resource)).*1
  = [mkSample "network" TYPE_GAUGE "network" (VInt 1)
       (VStr "u1") (VStr "p1") (VStr "") (VRef 3)]
  ∧ ¬ Forall (λ y, empty_id (sample_resource_id y.1) = false)
        (yields (NetworkNotificationBase.process_notification Network
                   (VRef 0) empty_id_resource)).
Proof.
  split; [by vm_compute|].
  intros H. apply Forall_inv in H. by vm_compute in H.
Qed.

(** C3, amended: the resource_id of every sample is the item found under
    "id" in the sample's resource (the payload of its message when it is
    yielded) for the generic handler, and under "label_id" in the payload
    for the bandwidth handler; a resource or payload without that item gets
    no sample.  The value itself is not examined. *)
Theorem C3_resource_id_is_the_id_item
    (self : plugin) (message : val) (h : heap) :
  Forall (λ y, ∃ x, getitem y.2 (sample_message y.1) "payload" = inr x
                    ∧ getitem y.2 x "id" = inr (sample_resource_id y.1))
         (yields (NetworkNotificationBase.process_notification self
                    message h))
  ∧ Forall (λ y, ∃ payload,
                getitem y.2 (sample_message y.1) "payload" = inr payload
                ∧ getitem y.2 payload "label_id"
                  = inr (sample_resource_id y.1))
         (yields (Bandwidth.process_notification message h)).
Proof.
  split.
  - destruct (process_notification_cases self message h)
      as [->|(lm & rs & h' & m & -> & Hex & Hm)]; [by constructor|].
    eapply Forall_impl; [exact (process_notification_yields _ _ _ _ _ _ Hex Hm)|].
    intros [s hy] (x & -> & Hs). cbn [fst snd] in *.
    apply emit_one_outcome_samples in Hs as (-> & Hid & _).
    exists x. split; [|done].
    rewrite (getitem_dict _ _ _ _ (at_resource_lookup _ _ _ _)).
    by rewrite lookup_insert_eq.
  - unfold Bandwidth.process_notification.
    gstep. destruct (getitem h message "payload") as [e|p] eqn:Hp;
      [by constructor|].
    gstep. destruct (getitem h p "bytes") as [e|b]; [by constructor|].
    gstep. rewrite Hp.
    gstep. destruct (getitem h p "tenant_id") as [e|t]; [by constructor|].
    gstep. rewrite Hp.
    gstep. destruct (getitem h p "label_id") as [e|l] eqn:Hl;
      [by constructor|].
    repeat constructor. by exists p.
Qed.

(** ** C8: the message each sample carries *)



(** The payloads the two samples of scenario B carry when they are
    yielded: the resource "n1" for the first, "n2" for the second. *)
Example scenario_B_payloads :
  (λ y, (sample_resource_id y.1, getitem y.2 (sample_message y.1) "payload"))
    <$> yields (NetworkNotificationBase.process_notification Network
                  (VRef 0) scenario_B)
  = [(VStr "n1", inr (VRef 3)); (VStr "n2", inr (VRef 4))].
Proof. by vm_compute. Qed.

(** ** C6: which key the extraction takes *)

(** C6 as stated fails: in the payload
    {"network": {}, "networks": [{"id": "n1"}]} the key "network" is
    present, yet the extraction reads the plural key and the resource "n1"
    of the collection gets the sample. *)
Lemma C6_plural_key_consulted :
  getitem falsy_singular (VRef 1) "network" = inr (VRef 2)
  ∧ result (NetworkNotificationBase.extract Network (VRef 0) falsy_singular)
    = inr (Held (VRef 3))
  ∧ (yields (NetworkNotificationBase.process_notification Network (VRef 0)
               falsy_singular)).*1
    = [mkSample "network" TYPE_GAUGE "network" (VInt 1)
         (VStr "u1") (VStr "p1") (VStr "n1") (VRef 5)].
Proof. by vm_compute. Qed.

(** C6, amended: the test is on the truth value of what the payload holds
    under [resource_name] (None when the key is absent).  When it is true,
    that value is the one resource and nothing else can be returned (for an
    event type that is a string not ending in "update.start" it is returned
    with the store untouched); when it is false (key absent, or None, an
    empty object, an empty string, zero, ...), the extraction returns what
    the payload holds under [resource_name + "s"], None when absent, and
    leaves the store untouched. *)
Theorem C6_truth_value_selects_the_key
    (self : plugin) (h : heap) (lm lp : loc) (m dp : gmap string val) :
  h !! lm = Some (ODict m) →
  m !! "payload" = Some (VRef lp) →
  h !! lp = Some (ODict dp) →
  let resource := default VNone (dp !! resource_name self) in
  let e := NetworkNotificationBase.extract self (VRef lm) h in
  (truthy h resource = inr true →
     (∀ rs, result e = inr rs → rs = Display [resource])
     ∧ (∀ et, m !! "event_type" = Some (VStr et) →
              str_endswith et "update.start" = false →
              e = Run [] (inr (Display [resource])) h))
  ∧ (truthy h resource = inr false →
     e = Run [] (inr (Held (default VNone
                              (dp !! (resource_name self +:+ "s"))))) h).
Proof.
  intros Hm Hpay Hlp resource e. subst resource e. split.
  - intros Ht. split.
    + intros rs E. apply extract_returns in E as (lm' & h' & [= <-] & Hx & _).
      destruct Hx as [m1 lp1 dp1 Hm1 Hpay1 Hlp1 Ht1
                     |m1 lp1 dp1 et1 Hm1 Hpay1 Hlp1 _ _ _
                     |m1 lp1 dp1 et1 lr d v Hm1 Hpay1 Hlp1 Hname _ _ _ _ _];
        assert (m1 = m) as -> by congruence;
        assert (lp1 = lp) as -> by congruence;
        assert (dp1 = dp) as -> by congruence.
      * congruence.
      * done.
      * by rewrite Hname.
    + intros et Hev Hend. apply extract_complete.
      by eapply extracts_single.
  - intros Ht. apply extract_complete. by eapply extracts_plural.
Qed.

(** Scenario A (truthy resource) and the payload with an empty "network"
    object (falsy), through C6. *)
Lemma C6_scenario_A_and_falsy :
  NetworkNotificationBase.extract Network (VRef 0) scenario_A
    = Run [] (inr (Display [VRef 2])) scenario_A
  ∧ NetworkNotificationBase.extract Network (VRef 0) falsy_singular
    = Run [] (inr (Held (VRef 3))) falsy_singular.
Proof.
  split.
  - apply (proj2 (proj1 (C6_truth_value_selects_the_key Network scenario_A
             0 1
             (list_to_map [("event_type", VStr "network.create.end");
                           ("payload", VRef 1);
                           ("_context_user_id", VStr "u1");
                           ("_context_tenant_id", VStr "p1")])
             (list_to_map [("network", VRef 2)])
             eq_refl eq_refl eq_refl) eq_refl) "network.create.end");
      reflexivity.
  - apply (proj2 (C6_truth_value_selects_the_key Network falsy_singular
             0 1
             (list_to_map [("event_type", VStr "network.exists");
                           ("payload", VRef 1);
                           ("_context_user_id", VStr "u1");
                           ("_context_tenant_id", VStr "p1")])
             (list_to_map [("network", VRef 2); ("networks", VRef 3)])
             eq_refl eq_refl eq_refl)).
    reflexivity.
Defined.

(** ** C10 and C5: the backfill of the id *)

(** C10: on an event type ending in "update.start", a non-empty resource
    object under [resource_name] gets the payload's top-level "id" written
    under its own "id", whatever it held there before; a falsy value under
    [resource_name] (the plural branch) leaves the store as it was; and in
    every case the store the extraction leaves is the input store or the
    input store with that one item written. *)
Theorem C10_backfill_is_unconditional
    (self : plugin) (h : heap) (lm lp : loc) (m dp : gmap string val)
    (et : string) :
  h !! lm = Some (ODict m) →
  m !! "payload" = Some (VRef lp) →
  h !! lp = Some (ODict dp) →
  m !! "event_type" = Some (VStr et) →
  str_endswith et "update.start" = true →
  let e := NetworkNotificationBase.extract self (VRef lm) h in
  (∀ lr d v,
     dp !! resource_name self = Some (VRef lr) →
     h !! lr = Some (ODict d) → d ≠ ∅ →
     dp !! "id" = Some v →
     e = Run [] (inr (Display [VRef lr]))
           (<[lr := ODict (<["id" := v]> d)]> h))
  ∧ (truthy h (default VNone (dp !! resource_name self)) = inr false →
     final e = h)
  ∧ (final e = h
     ∨ ∃ lr d v,
         dp !! resource_name self = Some (VRef lr)
         ∧ h !! lr = Some (ODict d)
         ∧ dp !! "id" = Some v
         ∧ final e = <[lr := ODict (<["id" := v]> d)]> h).
Proof.
  intros Hm Hpay Hlp Hev Hend e. subst e. split; [|split].
  - intros lr d v Hname Hlr Hne Hid. apply extract_complete.
    by eapply extracts_backfill.
  - intros Ht.
    by rewrite (extract_complete _ _ _ _ _
                  (extracts_plural self h lm m lp dp Hm Hpay Hlp Ht)).
  - destruct (result (NetworkNotificationBase.extract self (VRef lm) h))
      as [err|rs] eqn:E.
    + left. by rewrite (extract_raises _ _ _ _ E).
    + apply extract_returns in E as (lm' & h' & [= <-] & Hx & ->).
      cbn [final].
      destruct Hx as [| |m1 lp1 dp1 et1 lr d v Hm1 Hpay1 Hlp1 Hname Hlr _ _ _ Hid];
        [by left..|].
      assert (m1 = m) as -> by congruence.
      assert (lp1 = lp) as -> by congruence.
      assert (dp1 = dp) as -> by congruence.
      right. by exists lr, d, v.
Qed.

(** A resource that already has the id "stale", through C10: the
    payload's "n1" replaces it. *)
Lemma C10_stale_id_overwritten :
  NetworkNotificationBase.extract Network (VRef 0) update_start_own_id
  = Run [] (inr (Display [VRef 2]))
      (<[2 := ODict (<["id" := VStr "n1"]>
                       (list_to_map [("id", VStr "stale");
                                     ("name", VStr "changed")]))]>
         update_start_own_id).
Proof.
  apply (proj1 (C10_backfill_is_unconditional Network update_start_own_id
           0 1
           (list_to_map [("event_type", VStr "network.update.start");
                         ("payload", VRef 1);
                         ("_context_user_id", VStr "u1");
                         ("_context_tenant_id", VStr "p1")])
           (list_to_map [("id", VStr "n1"); ("network", VRef 2)])
           "network.update.start" eq_refl eq_refl eq_refl eq_refl eq_refl));
    [reflexivity|reflexivity| |reflexivity].
  intros E. by apply (f_equal (λ d : gmap string val, d !! "id")) in E.
Defined.

(** C5 as stated fails: in the payload {"id": "n1", "network": {}} of a
    "network.update.start" message the resource object lacks its own id
    and the payload carries one, yet the empty object is falsy: it is not
    taken as the resource, nothing is written into it, and no sample comes
    out. *)
Lemma C5_empty_resource_not_backfilled :
  getitem update_start_empty_resource (VRef 1) "network" = inr (VRef 2)
  ∧ getitem update_start_empty_resource (VRef 2) "id" = inl (KeyError "id")
  ∧ getitem update_start_empty_resource (VRef 1) "id" = inr (VStr "n1")
  ∧ result (NetworkNotificationBase.extract Network (VRef 0)
              update_start_empty_resource) = inr (Held VNone)
  ∧ getitem (final (NetworkNotificationBase.process_notification Network
                      (VRef 0) update_start_empty_resource))
      (VRef 2) "id" = inl (KeyError "id")
  ∧ yields (NetworkNotificationBase.process_notification Network (VRef 0)
              update_start_empty_resource) = [].
Proof. by vm_compute. Qed.

(** C5, amended: on an event type ending in "update.start", when the
    payload holds under [resource_name] a non-empty resource object without
    an "id" and carries the top-level id "X", the extraction returns that
    object as the one resource, the object then has "X" under "id", and
    every sample the handler yields has "X" as resource_id; with both
    context fields present samples are indeed yielded. *)
Theorem C5_update_start_id_backfilled
    (self : plugin) (h : heap) (lm lp lr : loc) (m dp d : gmap string val)
    (et X : string) :
  h !! lm = Some (ODict m) →
  m !! "payload" = Some (VRef lp) →
  h !! lp = Some (ODict dp) →
  m !! "event_type" = Some (VStr et) →
  str_endswith et "update.start" = true →
  dp !! resource_name self = Some (VRef lr) →
  h !! lr = Some (ODict d) →
  d ≠ ∅ →
  d !! "id" = None →
  dp !! "id" = Some (VStr X) →
  let e := NetworkNotificationBase.extract self (VRef lm) h in
  let r := NetworkNotificationBase.process_notification self (VRef lm) h in
  result e = inr (Display [VRef lr])
  ∧ getitem (final e) (VRef lr) "id" = inr (VStr X)
  ∧ Forall (λ y, sample_resource_id y.1 = VStr X) (yields r)
  ∧ (is_Some (m !! "_context_user_id") →
     is_Some (m !! "_context_tenant_id") →
     yields r ≠ []).
Proof.
  intros Hm Hpay Hlp Hev Hend Hname Hlr Hne _ Hid e r. subst e r.
  pose proof (extracts_backfill self h lm m lp dp et lr d (VStr X)
                Hm Hpay Hlp Hname Hlr Hne Hev Hend Hid) as Hx.
  pose proof (extract_complete _ _ _ _ _ Hx) as Hex.
  set (h' := <[lr := ODict (<["id" := VStr X]> d)]> h) in *.
  assert (Hlr' : h' !! lr = Some (ODict (<["id" := VStr X]> d)))
    by apply lookup_insert_eq.
  assert (Hgid : ∀ c o, getitem (<[c := o]> h') (VRef lr) "id" = inr (VStr X)
                        ∨ c = lr).
  { intros c o. destruct (decide (c = lr)) as [->|Hc]; [by right|left].
    rewrite (getitem_dict _ lr (<["id" := VStr X]> d)).
    - by rewrite lookup_insert_eq.
    - by rewrite lookup_insert_ne. }
  destruct (extracts_message _ _ _ _ _ _ Hx Hm) as (m' & Hm' & Hsame).
  rewrite Hex. cbn [result final].
  split; [done|]. split.
  { rewrite (getitem_dict _ _ _ _ Hlr'). by rewrite lookup_insert_eq. }
  rewrite (process_notification_run _ _ _ _ _ Hex).
  rewrite (emit_run _ _ _ _ _ Hm'). cbv zeta. cbn [iter_resources gret result].
  assert (Hi : getitem (at_resource (fresh (dom h')) m' h' (VRef lr))
                 (VRef lr) "id" = inr (VStr X)).
  { destruct (Hgid (fresh (dom h')) (ODict (<["payload" := VRef lr]> m')))
      as [G|G]; [done|].
    pose proof (fresh_loc_unused h') as Hf. rewrite G in Hf. congruence. }
  split.
  - eapply Forall_impl; [apply emit_loop_yields|].
    intros [s hy] (x & ->%list_elem_of_singleton & _ & Hs). cbn [fst snd] in *.
    apply emit_one_outcome_samples in Hs as (_ & Hs & _).
    rewrite Hi in Hs. by injection Hs as <-.
  - intros [u Hu] [p Hp].
    cbn [emit_loop_outcome]. cbv zeta.
    rewrite (emit_one_outcome_ok self _ m' h' (VRef lr) u p et (VStr X));
      [done|by rewrite Hsame..|done].
Qed.

(** Scenario D of the spec, through C5. *)
Lemma C5_scenario_D :
  let e := NetworkNotificationBase.extract Network (VRef 0) scenario_D in
  let r := NetworkNotificationBase.process_notification Network (VRef 0)
             scenario_D in
  result e = inr (Display [VRef 2])
  ∧ getitem (final e) (VRef 2) "id" = inr (VStr "n1")
  ∧ Forall (λ y, sample_resource_id y.1 = VStr "n1") (yields r)
  ∧ yields r ≠ [].
Proof.
  destruct (C5_update_start_id_backfilled Network scenario_D 0 1 2
              (list_to_map [("event_type", VStr "network.update.start");
                            ("payload", VRef 1);
                            ("_context_user_id", VStr "u1");
                            ("_context_tenant_id", VStr "p1")])
              (list_to_map [("id", VStr "n1"); ("network", VRef 2)])
              (list_to_map [("name", VStr "changed")])
              "network.update.start" "n1")
    as (He & Hid & Hall & Hsome); try reflexivity.
  { intros E. by apply (f_equal (λ d : gmap string val, d !! "name")) in E. }
  cbv zeta. split; [exact He|]. split; [exact Hid|]. split; [exact Hall|].
  apply Hsome; by eexists.
Defined.

(** The samples of scenario D. *)
Example scenario_D_samples :
  (yields (NetworkNotificationBase.process_notification Network (VRef 0)
             scenario_D)).*1
  = [mkSample "network" TYPE_GAUGE "network" (VInt 1)
       (VStr "u1") (VStr "p1") (VStr "n1") (VRef 3);
     mkSample "network.update" TYPE_DELTA "network" (VInt 1)
       (VStr "u1") (VStr "p1") (VStr "n1") (VRef 3)].
Proof. by vm_compute. Qed.

(** The samples of scenario B: one gauge sample per resource, no DELTA. *)
Example scenario_B_samples :
  let r := NetworkNotificationBase.process_notification Network (VRef 0)
             scenario_B in
  result r = inr tt
  ∧ sample_type_of <$> (yields r).*1 = [TYPE_GAUGE; TYPE_GAUGE]
  ∧ sample_resource_id <$> (yields r).*1 = [VStr "n1"; VStr "n2"].
Proof. by vm_compute. Qed.

(** ** C9: running the handler twice *)

Lemma closed_lookup h l o v :
  closed h = true → h !! l = Some o → v ∈ obj_items o → bound h v = true.
Proof.
  unfold closed. intros Hc Hl Hv.
  rewrite forallb_forall in Hc.
  assert (Ho : In o (map_to_list h).*2).
  { apply list_elem_of_In, list_elem_of_fmap. exists (l, o).
    split; [done|]. by apply elem_of_map_to_list. }
  specialize (Hc o Ho). rewrite forallb_forall in Hc.
  by apply Hc, list_elem_of_In.
Qed.

Lemma closed_dict_item h l d k v :
  closed h = true → h !! l = Some (ODict d) → d !! k = Some v →
  bound h v = true.
Proof.
  intros Hc Hl Hk. apply (closed_lookup h l (ODict d) v Hc Hl).
  cbn. apply list_elem_of_fmap. exists (k, v).
  split; [done|]. by apply elem_of_map_to_list.
Qed.

Lemma bound_frame h v c o : bound h v = true → bound (<[c := o]> h) v = true.
Proof.
  destruct v as [| | | | |l]; try done. cbn.
  intros [x Hx]%bool_decide_eq_true. apply bool_decide_eq_true.
  destruct (decide (c = l)) as [->|Hne].
  - rewrite lookup_insert_eq. eauto.
  - rewrite lookup_insert_ne by done. eauto.
Qed.

Lemma bound_not_fresh h l c :
  bound h (VRef l) = true → h !! c = None → l ≠ c.
Proof. cbn. intros [x Hx]%bool_decide_eq_true Hc ->. congruence. Qed.

Lemma iter_frame_bound h v c o :
  bound h v = true → h !! c = None → iter (<[c := o]> h) v = iter h v.
Proof.
  intros Hb Hc. destruct v as [| | | | |l]; try done. cbn.
  by rewrite lookup_insert_ne by (symmetry; by eapply bound_not_fresh).
Qed.

Lemma getitem_frame_bound h v k c o :
  bound h v = true → h !! c = None →
  getitem (<[c := o]> h) v k = getitem h v k.
Proof.
  intros Hb Hc. destruct v as [| | | | |l]; try done. cbn.
  by rewrite lookup_insert_ne by (symmetry; by eapply bound_not_fresh).
Qed.

Lemma truthy_frame h v b c o :
  truthy h v = inr b → h !! c = None → truthy (<[c := o]> h) v = inr b.
Proof.
  intros Ht Hc. destruct v as [| | | | |l]; try done. cbn in *.
  destruct (h !! l) as [ob|] eqn:Hl; [|done].
  rewrite lookup_insert_ne by (intros ->; congruence). by rewrite Hl.
Qed.

Lemma truthy_bound h v b : truthy h v = inr b → bound h v = true.
Proof.
  destruct v as [| | | | |l]; try done. cbn.
  destruct (h !! l) eqn:Hl; [|done]. intros _. by apply bool_decide_eq_true.
Qed.

Lemma iter_items_bound h v xs :
  closed h = true → iter h v = inr xs → Forall (λ x, bound h x = true) xs.
Proof.
  intros Hc. destruct v as [| | | |s|l]; try done; cbn.
  - intros [= <-]. induction s; by constructor.
  - destruct (h !! l) as [[d|ys]|] eqn:Hl; try done; intros [= <-].
    + apply Forall_fmap, Forall_forall. done.
    + apply Forall_forall. intros x Hx.
      by apply (closed_lookup h l (OList ys) x Hc Hl).
Qed.

(** Extracting again, from the store the first extraction left and one
    more object at a free location, returns the same resources and changes
    nothing. *)
Lemma extracts_replay self h lm rs h' c o :
  extracts self h lm rs h' → h' !! c = None →
  extracts self (<[c := o]> h') lm rs (<[c := o]> h').
Proof.
  intros Hx Hc.
  assert (Hkeep : ∀ l ob, h' !! l = Some ob → <[c := o]> h' !! l = Some ob).
  { intros l ob Hl. rewrite lookup_insert_ne; [done|]. intros ->. congruence. }
  destruct Hx as [m lp dp Hm Hpay Hlp Ht
                 |m lp dp et Hm Hpay Hlp Ht Hev Hend
                 |m lp dp et lr d v Hm Hpay Hlp Hname Hlr Hne Hev Hend Hid].
  - eapply extracts_plural; eauto using truthy_frame.
  - eapply extracts_single; eauto using truthy_frame.
  - set (d' := <["id" := v]> d) in *.
    set (h' := <[lr := ODict d']> h) in *.
    assert (Hlr' : h' !! lr = Some (ODict d')) by apply lookup_insert_eq.
    assert (Hdict : ∀ l x, h !! l = Some (ODict x) →
              ∃ x', h' !! l = Some (ODict x')
                    ∧ (∀ k, k ≠ "id" → x' !! k = x !! k)
                    ∧ (x !! "id" = Some v → x' = x)
                    ∧ (l = lr → x' = d')).
    { intros l x Hl. destruct (decide (l = lr)) as [->|Hn].
      - assert (x = d) as -> by congruence. exists d'.
        split; [done|]. split; [|split; [|done]].
        + intros k Hk. unfold d'. by rewrite lookup_insert_ne.
        + intros Hv. unfold d'. by apply insert_id.
      - exists x. unfold h'. rewrite lookup_insert_ne by done.
        repeat split; done. }
    destruct (Hdict lm m Hm) as (m' & Hm' & Hmk & _).
    destruct (Hdict lp dp Hlp) as (dp' & Hlp' & _ & Hdpid & _).
    specialize (Hdpid Hid). subst dp'.
    pose proof (extracts_backfill self (<[c := o]> h') lm m' lp dp et lr d' v)
      as Hb.
    assert (E : <[lr := ODict (<["id" := v]> d')]> (<[c := o]> h')
                = <[c := o]> h').
    { unfold d' at 1. rewrite insert_insert_eq. fold d'.
      apply insert_id. by apply Hkeep. }
    rewrite E in Hb. apply Hb; try done.
    + by apply Hkeep.
    + by rewrite Hmk.
    + by apply Hkeep.
    + by apply Hkeep.
    + unfold d'. apply insert_non_empty.
    + by rewrite Hmk.
Qed.

(** In a closed store, what the extraction returns for the loop holds no
    reference out of the store, before and after iterating. *)
Lemma extracts_bound self h lm rs h' :
  closed h = true → extracts self h lm rs h' →
  match rs with
  | Display xs => Forall (λ x, bound h' x = true) xs
  | Held v =>
      bound h' v = true
      ∧ ∀ xs, iter h' v = inr xs → Forall (λ x, bound h' x = true) xs
  end.
Proof.
  intros Hc Hx.
  destruct Hx as [m lp dp Hm Hpay Hlp Ht
                 |m lp dp et Hm Hpay Hlp Ht Hev Hend
                 |m lp dp et lr d v Hm Hpay Hlp Hname Hlr Hne Hev Hend Hid].
  - split.
    + destruct (dp !! (resource_name self +:+ "s")) as [v|] eqn:Hv; [|done].
      by eapply closed_dict_item.
    + intros xs. by apply iter_items_bound.
  - repeat constructor. by eapply truthy_bound.
  - repeat constructor. cbn. apply bool_decide_eq_true.
    rewrite lookup_insert_eq. eauto.
Qed.

(** Two turns of the loop over copies at [c1] and [c2] holding the same
    items, for a resource whose "id" reads the same in both stores: the
    same result, and samples that differ in the message reference only. *)
Lemma emit_one_outcome_sim self c1 c2 m h1 h2 x :
  getitem (at_resource c1 m h1 x) x "id"
    = getitem (at_resource c2 m h2 x) x "id" →
  (emit_one_outcome self c1 m h1 x).2 = (emit_one_outcome self c2 m h2 x).2
  ∧ Forall2 (λ s1 s2, same_fields s1 s2
                      ∧ sample_message s1 = VRef c1
                      ∧ sample_message s2 = VRef c2)
      (emit_one_outcome self c1 m h1 x).1
      (emit_one_outcome self c2 m h2 x).1.
Proof.
  intros Hid. unfold emit_one_outcome. rewrite Hid. clear Hid.
  destruct (m !! "_context_user_id") as [u|]; [|by split; [|constructor]].
  destruct (m !! "_context_tenant_id") as [p|]; [|by split; [|constructor]].
  destruct (getitem (at_resource c2 m h2 x) x "id") as [e|i];
    [by split; [|constructor]|].
  cbv zeta. unfold same_fields.
  destruct (m !! "event_type") as [ev|]; [|by split; repeat constructor].
  destruct (split_dot ev) as [e|sp]; [by split; repeat constructor|].
  destruct (2 <? length sp); [|by split; repeat constructor].
  destruct (sp !! 1) as [ph|]; by split; repeat constructor.
Qed.

Lemma emit_loop_sim self c1 c2 m h1 h2 xs :
  Forall (λ x, getitem (at_resource c1 m h1 x) x "id"
               = getitem (at_resource c2 m h2 x) x "id") xs →
  ∀ o,
  let ra := emit_loop_outcome self c1 m h1 (<[c1 := o]> h1) xs in
  let rb := emit_loop_outcome self c2 m h2 (<[c2 := o]> h2) xs in
  result ra = result rb
  ∧ Forall2 (paired_yield c1 c2 h1 h2) (yields ra) (yields rb)
  ∧ ∃ o', final ra = <[c1 := o']> h1 ∧ final rb = <[c2 := o']> h2.
Proof.
  induction 1 as [|x xs Hid _ IH]; intros o.
  { cbn. split; [done|]. split; [constructor|]. by exists o. }
  cbn [emit_loop_outcome]. cbv zeta.
  destruct (emit_one_outcome_sim self c1 c2 m h1 h2 x Hid) as [Hres Hss].
  assert (Hys : Forall2 (paired_yield c1 c2 h1 h2)
      ((λ s, (s, at_resource c1 m h1 x))
         <$> (emit_one_outcome self c1 m h1 x).1)
      ((λ s, (s, at_resource c2 m h2 x))
         <$> (emit_one_outcome self c2 m h2 x).1)).
  { apply Forall2_fmap. eapply Forall2_impl; [exact Hss|].
    intros s1 s2 (?&?&?). unfold paired_yield. cbn [fst snd].
    repeat (split; [done|]). by eexists. }
  rewrite <-Hres.
  destruct (emit_one_outcome self c1 m h1 x).2 as [e|[]].
  - cbn [result yields final]. split; [done|]. split; [done|]. by eexists.
  - destruct (IH (ODict (<["payload" := x]> m))) as (IHr & IHy & IHf).
    cbn [result yields final]. unfold at_resource in *.
    split; [done|]. split; [|done]. by apply Forall2_app.
Qed.

Lemma iter_resources_frame_bound rs h c o :
  match rs with Display _ => True | Held v => bound h v = true end →
  h !! c = None →
  result (iter_resources rs (<[c := o]> h)) = result (iter_resources rs h).
Proof.
  destruct rs as [xs|v]; [done|]. cbn. intros Hb Hc.
  by apply iter_frame_bound.
Qed.

Lemma extracts_items_bound self h lm rs h' xs :
  closed h = true → extracts self h lm rs h' →
  result (iter_resources rs h') = inr xs →
  Forall (λ x, bound h' x = true) xs.
Proof.
  intros Hc Hx Hit. pose proof (extracts_bound _ _ _ _ _ Hc Hx) as Hb.
  destruct rs as [ys|v]; cbn in Hit.
  - by injection Hit as <-.
  - destruct Hb as [_ Hb]. by apply Hb.
Qed.

Lemma extracts_held_bound self h lm rs h' :
  closed h = true → extracts self h lm rs h' →
  match rs with Display _ => True | Held v => bound h' v = true end.
Proof.
  intros Hc Hx. pose proof (extracts_bound _ _ _ _ _ Hc Hx) as Hb.
  destruct rs; [done|]. by destruct Hb.
Qed.

(** The whole handler on the store an earlier extraction left, with one
    more object at a free location. *)
Lemma process_notification_replay self h lm rs h' m c o :
  closed h = true →
  extracts self h lm rs h' →
  h' !! lm = Some (ODict m) →
  h' !! c = None →
  let hf := <[c := o]> h' in
  NetworkNotificationBase.process_notification self (VRef lm) hf =
    let c2 := fresh (dom hf) in
    match result (iter_resources rs h') with
    | inl e => Run [] (inl e) (<[c2 := ODict m]> hf)
    | inr xs => emit_loop_outcome self c2 m hf (<[c2 := ODict m]> hf) xs
    end.
Proof.
  intros Hc Hx Hm Hfree hf.
  pose proof (extracts_replay _ _ _ _ _ c o Hx Hfree) as Hx2. fold hf in Hx2.
  assert (Hm2 : hf !! lm = Some (ODict m)).
  { unfold hf. rewrite lookup_insert_ne; [done|]. intros ->. congruence. }
  rewrite (process_notification_run _ _ _ _ _ (extract_complete _ _ _ _ _ Hx2)).
  rewrite (emit_run _ _ _ _ _ Hm2). cbv zeta.
  pose proof (extracts_held_bound _ _ _ _ _ Hc Hx) as Hb.
  rewrite (iter_resources_frame_bound rs hf);
    [|destruct rs; [done|by apply bound_frame]|apply fresh_loc_unused].
  unfold hf at 1 3. by rewrite (iter_resources_frame_bound rs h').
Qed.

(** The bandwidth handler only reads the store. *)
Lemma bandwidth_store_unchanged message h :
  final (Bandwidth.process_notification message h) = h.
Proof.
  unfold Bandwidth.process_notification.
  gstep. destruct (getitem h message "payload") as [e|p] eqn:Hp; [done|].
  gstep. destruct (getitem h p "bytes") as [e|b]; [done|].
  gstep. rewrite Hp.
  gstep. destruct (getitem h p "tenant_id") as [e|t]; [done|].
  gstep. rewrite Hp.
  gstep. by destruct (getitem h p "label_id") as [e|l].
Qed.

(** C9: in a closed store, running the generic handler a second time on
    the same message, in the store the first run left, ends the same way
    and yields samples that are field for field those of the first run: the
    same name, type, unit, volume and identity fields, and a message with
    the same items, both when each sample is yielded and after both runs
    have ended.  The bandwidth handler leaves the store as it found it, so
    its second run is equal to the first. *)
Theorem C9_second_run_identical
    (self : plugin) (message : val) (h : heap) :
  closed h = true →
  let r1 := NetworkNotificationBase.process_notification self message h in
  let r2 := NetworkNotificationBase.process_notification self message
              (final r1) in
  result r2 = result r1
  ∧ Forall2 same_yield (yields r1) (yields r2)
  ∧ Forall2 (λ y1 y2, ∃ o, raw_message (final r2) y1.1 = Some o
                           ∧ raw_message (final r2) y2.1 = Some o)
      (yields r1) (yields r2)
  ∧ Bandwidth.process_notification message
      (final (Bandwidth.process_notification message h))
    = Bandwidth.process_notification message h.
Proof.
  intros Hc r1 r2. subst r1 r2.
  rewrite bandwidth_store_unchanged.
  assert (Hlast : ∀ P Q R S : Prop, S → P ∧ Q ∧ R → P ∧ Q ∧ R ∧ S) by tauto.
  apply Hlast; [done|]. clear Hlast.
  destruct (result (NetworkNotificationBase.extract self message h))
    as [e|rs] eqn:E.
  { rewrite !(process_notification_raises _ _ _ _ E). cbn [final].
    rewrite !(process_notification_raises _ _ _ _ E). cbn.
    repeat split; constructor. }
  apply extract_returns in E as (lm & h' & -> & Hx & Hex).
  assert (∃ m0, h !! lm = Some (ODict m0)) as [m0 Hm0]
    by (destruct Hx; eauto).
  destruct (extracts_message _ _ _ _ _ _ Hx Hm0) as (m & Hm & _).
  rewrite (process_notification_run _ _ _ _ _ Hex).
  rewrite (emit_run _ _ _ _ _ Hm). cbv zeta.
  set (c1 := fresh (dom h')).
  pose proof (fresh_loc_unused h') as Hc1. fold c1 in Hc1.
  rewrite (iter_resources_frame_bound rs h' c1);
    [|by eapply extracts_held_bound|done].
  destruct (result (iter_resources rs h')) as [e|xs] eqn:Hit.
  { cbn [final result yields].
    rewrite (process_notification_replay _ _ _ _ _ _ c1 (ODict m) Hc Hx Hm Hc1).
    cbv zeta. rewrite Hit. cbn. repeat split; constructor. }
  pose proof (extracts_items_bound _ _ _ _ _ _ Hc Hx Hit) as Hxs.
  set (ra := emit_loop_outcome self c1 m h' (<[c1 := ODict m]> h') xs).
  assert (∃ o1, final ra = <[c1 := o1]> h') as [o1 Hfa].
  { destruct (emit_loop_sim self c1 c1 m h' h' xs) with (o := ODict m)
      as (_ & _ & o' & Hf & _); [by apply Forall_forall|by exists o']. }
  rewrite Hfa.
  rewrite (process_notification_replay _ _ _ _ _ _ c1 o1 Hc Hx Hm Hc1).
  cbv zeta. rewrite Hit.
  set (hf := <[c1 := o1]> h').
  set (c2 := fresh (dom hf)).
  pose proof (fresh_loc_unused hf) as Hc2. fold c2 in Hc2.
  assert (Hne : c1 ≠ c2).
  { intros Heq. rewrite <-Heq in Hc2. unfold hf in Hc2.
    by rewrite lookup_insert_eq in Hc2. }
  destruct (emit_loop_sim self c1 c2 m h' hf xs) with (o := ODict m)
    as (Hres & Hys & o' & Hf1 & Hf2).
  { eapply Forall_impl; [exact Hxs|]. intros x Hbx. cbn beta in Hbx.
    unfold at_resource.
    rewrite (getitem_frame_bound h' x "id" c1) by done.
    rewrite (getitem_frame_bound hf x "id" c2);
      [|by apply bound_frame|done].
    unfold hf. by rewrite (getitem_frame_bound h' x "id" c1). }
  fold ra in Hres, Hys, Hf1.
  split; [done|]. split.
  - eapply Forall2_impl; [exact Hys|].
    intros [s1 hy1] [s2 hy2] Hp. unfold paired_yield in Hp.
    cbn [fst snd] in Hp. destruct Hp as (Hsame & Hm1 & Hm2 & o & -> & ->).
    split; [done|]. exists o. cbn [fst snd].
    unfold raw_message. rewrite Hm1, Hm2. by rewrite !lookup_insert_eq.
  - eapply Forall2_impl; [exact Hys|].
    intros [s1 hy1] [s2 hy2] Hp. unfold paired_yield in Hp.
    cbn [fst snd] in Hp. destruct Hp as (_ & Hm1 & Hm2 & _).
    exists o'. cbn [fst snd]. unfold raw_message. rewrite Hm1, Hm2, Hf2.
    rewrite lookup_insert_eq. split; [|done].
    rewrite lookup_insert_ne by done.
    assert (hf = <[c1 := o']> h') as -> by (unfold hf; congruence).
    apply lookup_insert_eq.
Qed.

(** Scenario D (whose first run writes the id into the resource) run
    twice, through C9. *)
Lemma C9_scenario_D_twice :
  closed scenario_D = true
  ∧ let r1 := NetworkNotificationBase.process_notification Network (VRef 0)
                scenario_D in
    let r2 := NetworkNotificationBase.process_notification Network (VRef 0)
                (final r1) in
    result r2 = result r1
    ∧ Forall2 same_yield (yields r1) (yields r2)
    ∧ Forall2 (λ y1 y2, ∃ o, raw_message (final r2) y1.1 = Some o
                             ∧ raw_message (final r2) y2.1 = Some o)
        (yields r1) (yields r2)
    ∧ Bandwidth.process_notification (VRef 0)
        (final (Bandwidth.process_notification (VRef 0) scenario_D))
      = Bandwidth.process_notification (VRef 0) scenario_D.
Proof.
  split; [reflexivity|].
  apply (C9_second_run_identical Network (VRef 0) scenario_D).
  reflexivity.
Defined.

(** The two runs of scenario D yield two samples each, from two distinct
    message copies. *)
Example scenario_D_twice_samples :
  let r1 := NetworkNotificationBase.process_notification Network (VRef 0)
              scenario_D in
  let r2 := NetworkNotificationBase.process_notification Network (VRef 0)
              (final r1) in
  sample_message <$> (yields r1).*1 = [VRef 3; VRef 3]
  ∧ sample_message <$> (yields r2).*1 = [VRef 4; VRef 4]
  ∧ sample_resource_id <$> (yields r2).*1 = [VStr "n1"; VStr "n1"].
Proof. by vm_compute. Qed.

(** ** When the handler ends normally *)

Lemma emit_one_outcome_normal self c m h x :
  (emit_one_outcome self c m h x).2 = inr tt →
  ∃ u p et i,
    m !! "_context_user_id" = Some u
    ∧ m !! "_context_tenant_id" = Some p
    ∧ m !! "event_type" = Some (VStr et)
    ∧ getitem (at_resource c m h x) x "id" = inr i.
Proof.
  unfold emit_one_outcome.
  destruct (m !! "_context_user_id") as [u|]; [|done].
  destruct (m !! "_context_tenant_id") as [p|]; [|done].
  destruct (getitem (at_resource c m h x) x "id") as [e|i]; [done|].
  destruct (m !! "event_type") as [[| | | |et|]|]; try done.
  intros _. by exists u, p, et, i.
Qed.

Lemma emit_loop_normal self c m h xs :
  ∀ cur,
  result (emit_loop_outcome self c m h cur xs) = inr tt →
  Forall (λ x, (emit_one_outcome self c m h x).2 = inr tt) xs.
Proof.
  induction xs as [|x xs IH]; intros cur; [by constructor|].
  cbn [emit_loop_outcome]. cbv zeta.
  destruct (emit_one_outcome self c m h x).2 as [e|[]] eqn:Ho; [done|].
  cbn [result]. intros Hr. constructor; [done|]. by eapply IH.
Qed.

(** The conditions of C2 are exactly those under which the handler gets
    through a non-empty sequence of resources: if it ends normally, the
    message copy holds both context fields and a string event type, every
    resource has an "id" when its turn comes, and the samples are those of
    [samples_of_resource], resource by resource. *)
Theorem normal_end_gives_the_samples
    (self : plugin) (h h' : heap) (lm : loc) (rs : resources)
    (m : gmap string val) (x : val) (xs : list val) :
  NetworkNotificationBase.extract self (VRef lm) h = Run [] (inr rs) h' →
  h' !! lm = Some (ODict m) →
  result (iter_resources rs h') = inr (x :: xs) →
  let r := NetworkNotificationBase.process_notification self (VRef lm) h in
  let c := fresh (dom h') in
  result r = inr tt →
  ∃ u p et ids,
    m !! "_context_user_id" = Some u
    ∧ m !! "_context_tenant_id" = Some p
    ∧ m !! "event_type" = Some (VStr et)
    ∧ Forall2 (λ x i, getitem (at_resource c m h' x) x "id" = inr i)
        (x :: xs) ids
    ∧ (yields r).*1
      = concat ((λ i, samples_of_resource self et u p i (VRef c)) <$> ids).
Proof.
  intros Hex Hm Hit r c. subst r c.
  rewrite (process_notification_run _ _ _ _ _ Hex).
  rewrite (emit_run _ _ _ _ _ Hm). cbv zeta.
  rewrite (iter_resources_frame _ _ _ _ _ Hit (fresh_loc_unused h')).
  intros Hr. pose proof (emit_loop_normal _ _ _ _ _ _ Hr) as Hall.
  pose proof (Forall_inv Hall) as Hx.
  apply emit_one_outcome_normal in Hx as (u & p & et & i & Hu & Hp & He & _).
  assert (∃ ids, Forall2 (λ x i, getitem (at_resource (fresh (dom h')) m h' x)
                                   x "id" = inr i) (x :: xs) ids)
    as [ids Hids].
  { clear -Hall. induction Hall as [|y ys Hy _ [ids IH]];
      [by exists []|].
    apply emit_one_outcome_normal in Hy as (_ & _ & _ & i & _ & _ & _ & Hi).
    exists (i :: ids). by constructor. }
  exists u, p, et, ids. repeat (split; [done|]).
  by apply (emit_loop_ok _ _ _ _ _ _ _ Hu Hp He).
Qed.

(** Scenario B, through [normal_end_gives_the_samples]. *)
Lemma normal_end_scenario_B :
  ∃ u p et ids,
    (list_to_map [("event_type", VStr "network.exists");
                  ("payload", VRef 1);
                  ("_context_user_id", VStr "u1");
                  ("_context_tenant_id", VStr "p1")] : gmap string val)
      !! "_context_user_id" = Some u
    ∧ (list_to_map [("event_type", VStr "network.exists");
                    ("payload", VRef 1);
                    ("_context_user_id", VStr "u1");
                    ("_context_tenant_id", VStr "p1")] : gmap string val)
        !! "_context_tenant_id" = Some p
    ∧ (list_to_map [("event_type", VStr "network.exists");
                    ("payload", VRef 1);
                    ("_context_user_id", VStr "u1");
                    ("_context_tenant_id", VStr "p1")] : gmap string val)
        !! "event_type" = Some (VStr et)
    ∧ Forall2 (λ x i,
         getitem (at_resource 5
                    (list_to_map [("event_type", VStr "network.exists");
                                  ("payload", VRef 1);
                                  ("_context_user_id", VStr "u1");
                                  ("_context_tenant_id", VStr "p1")])
                    scenario_B x) x "id" = inr i)
        [VRef 3; VRef 4] ids
    ∧ (yields (NetworkNotificationBase.process_notification Network
                 (VRef 0) scenario_B)).*1
      = concat ((λ i, samples_of_resource Network et u p i (VRef 5)) <$> ids).
Proof.
  apply (normal_end_gives_the_samples Network scenario_B scenario_B 0
           (Held (VRef 2))
           (list_to_map [("event_type", VStr "network.exists");
                         ("payload", VRef 1);
                         ("_context_user_id", VStr "u1");
                         ("_context_tenant_id", VStr "p1")])
           (VRef 3) [VRef 4]); reflexivity.
Defined.

(** * More properties of the code *)

(** ** Splitting and matching event types *)

Lemma str_split_not_nil sep s : str_split sep s ≠ [].
Proof.
  destruct s as [|c s]; cbn; [done|].
  destruct (Ascii.eqb c sep); [done|]. by destruct (str_split sep s).
Qed.

Lemma str_split_dot_free s : dot_free s = true → str_split "." s = [s].
Proof.
  induction s as [|c s IH]; [done|]. cbn.
  intros [Hc Hs]%andb_true_iff. apply negb_true_iff in Hc.
  rewrite Hc, (IH Hs). done.
Qed.

Lemma str_split_app s t :
  dot_free s = true →
  str_split "." (s +:+ "." +:+ t) = s :: str_split "." t.
Proof.
  induction s as [|c s IH]; [done|]. cbn [dot_free].
  intros [Hc Hs]%andb_true_iff. apply negb_true_iff in Hc.
  change (String c s +:+ "." +:+ t) with (String c (s +:+ "." +:+ t)).
  cbn [str_split]. by rewrite Hc, (IH Hs).
Qed.

Lemma str_split_segments_dot_free s :
  Forall (λ w, dot_free w = true) (str_split "." s).
Proof.
  induction s as [|c s IH]; [by repeat constructor|]. cbn.
  destruct (Ascii.eqb c ".") eqn:Hc; [by constructor|].
  destruct (str_split "." s) as [|w ws]; [by repeat constructor; cbn; rewrite Hc|].
  apply Forall_cons in IH as [Hw Hws]. constructor; [|done].
  cbn. by rewrite Hc, Hw.
Qed.

Lemma str_join_split s : str_join "." (str_split "." s) = s.
Proof.
  induction s as [|c s IH]; [done|]. cbn [str_split].
  destruct (Ascii.eqb c ".") eqn:Hc.
  - apply Ascii.eqb_eq in Hc as ->.
    pose proof (str_split_not_nil "." s) as Hne.
    destruct (str_split "." s) as [|w ws]; [done|].
    cbn [str_join] in *. by rewrite IH.
  - pose proof (str_split_not_nil "." s) as Hne.
    destruct (str_split "." s) as [|w ws]; [done|].
    cbn [str_join] in *. destruct ws; cbn in *; by rewrite <-IH.
Qed.

Lemma substring_whole s : String.substring 0 (String.length s) s = s.
Proof. induction s as [|c s IH]; [done|]. cbn. by rewrite IH. Qed.

Lemma substring_after_prefix p s :
  String.substring (String.length p) (String.length s) (p +:+ s) = s.
Proof.
  induction p as [|c p IH]; [apply substring_whole|].
  change (String c p +:+ s) with (String c (p +:+ s)). cbn. apply IH.
Qed.

Lemma string_length_app p s :
  String.length (p +:+ s) = String.length p + String.length s.
Proof.
  induction p as [|c p IH]; [done|].
  change (String c p +:+ s) with (String c (p +:+ s)). cbn. by rewrite IH.
Qed.

Lemma substring_cut s :
  ∀ n m, n + m = String.length s →
  s = String.substring 0 n s +:+ String.substring n m s.
Proof.
  induction s as [|c s IH]; intros n m Hn.
  - cbn in Hn. assert (n = 0) as -> by lia. assert (m = 0) as -> by lia. done.
  - destruct n as [|n].
    + cbn in Hn. subst m. cbn. by rewrite substring_whole.
    + cbn in Hn. cbn [String.substring].
      change (String c ?a +:+ ?b) with (String c (a +:+ b)).
      f_equal. apply IH. lia.
Qed.

(** The test [s.endswith(suffix)] holds exactly of the strings
    [prefix + suffix]. *)
Theorem endswith_iff_suffix (s suffix : string) :
  endswith (VStr s) suffix = inr true ↔ ∃ prefix, s = prefix +:+ suffix.
Proof.
  cbn [endswith]. unfold str_endswith. split.
  - intros [= [Hlen Heq]%andb_true_iff].
    apply Nat.leb_le in Hlen. apply String.eqb_eq in Heq.
    exists (String.substring 0 (String.length s - String.length suffix) s).
    pose proof (substring_cut s (String.length s - String.length suffix)
                  (String.length suffix)) as Hcut.
    rewrite Heq in Hcut. apply Hcut. lia.
  - intros [p ->]. f_equal. apply andb_true_iff. split.
    + apply Nat.leb_le. rewrite string_length_app. lia.
    + apply String.eqb_eq. rewrite string_length_app.
      replace (String.length p + String.length suffix - String.length suffix)
        with (String.length p) by lia.
      apply substring_after_prefix.
Qed.

(** Splitting on "." loses nothing: no segment holds a ".", and the
    segments joined by "." give the string back. *)
Theorem split_dot_join (s : string) :
  ∃ segments,
    split_dot (VStr s) = inr segments
    ∧ segments ≠ []
    ∧ Forall (λ w, dot_free w = true) segments
    ∧ str_join "." segments = s.
Proof.
  exists (str_split "." s). split; [done|].
  split; [apply str_split_not_nil|].
  split; [apply str_split_segments_dot_free|apply str_join_split].
Qed.

Lemma samples_of_resource_phase self name phase tail u p i c :
  dot_free name = true → dot_free phase = true →
  samples_of_resource self (name +:+ "." +:+ phase +:+ "." +:+ tail) u p i c
  = [mkSample (counter_name self) TYPE_GAUGE (unit_value self) (VInt 1)
       u p i c;
     mkSample (counter_name self +:+ "." +:+ phase) TYPE_DELTA
       (unit_value self) (VInt 1) u p i c].
Proof.
  intros Hn Hp. unfold samples_of_resource. cbv zeta.
  rewrite (str_split_app name _ Hn), (str_split_app phase _ Hp).
  pose proof (str_split_not_nil "." tail) as Hne.
  by destruct (str_split "." tail).
Qed.

Lemma samples_of_resource_two_segments self name last u p i c :
  dot_free name = true → dot_free last = true →
  samples_of_resource self (name +:+ "." +:+ last) u p i c
  = [mkSample (counter_name self) TYPE_GAUGE (unit_value self) (VInt 1)
       u p i c].
Proof.
  intros Hn Hl. unfold samples_of_resource. cbv zeta.
  by rewrite (str_split_app name _ Hn), (str_split_dot_free last Hl).
Qed.

(** For a plugin whose resource name holds no ".", the event types it
    listens to ([event_types]: name.create.end, name.update.*, name.exists)
    give, on the path of C2: for "name.phase.anything" one gauge sample
    and one DELTA sample named [counter_name + "." + phase] per resource,
    whatever follows the phase; for "name.last" gauge samples only. *)
Theorem delta_sample_named_after_phase
    (self : plugin) (h h' : heap) (lm : loc) (rs : resources)
    (m : gmap string val) (u p : val) (et : string) (xs ids : list val) :
  dot_free (resource_name self) = true →
  NetworkNotificationBase.extract self (VRef lm) h = Run [] (inr rs) h' →
  h' !! lm = Some (ODict m) →
  m !! "_context_user_id" = Some u →
  m !! "_context_tenant_id" = Some p →
  m !! "event_type" = Some (VStr et) →
  result (iter_resources rs h') = inr xs →
  Forall2 (λ x i, getitem h' x "id" = inr i) xs ids →
  let r := NetworkNotificationBase.process_notification self (VRef lm) h in
  let c := VRef (fresh (dom h')) in
  (∀ phase tail,
     dot_free phase = true →
     et = resource_name self +:+ "." +:+ phase +:+ "." +:+ tail →
     (yields r).*1
     = concat ((λ i, [mkSample (counter_name self) TYPE_GAUGE
                        (unit_value self) (VInt 1) u p i c;
                      mkSample (counter_name self +:+ "." +:+ phase)
                        TYPE_DELTA (unit_value self) (VInt 1) u p i c])
                 <$> ids))
  ∧ (∀ last,
       dot_free last = true →
       et = resource_name self +:+ "." +:+ last →
       (yields r).*1
       = (λ i, mkSample (counter_name self) TYPE_GAUGE (unit_value self)
                 (VInt 1) u p i c) <$> ids).
Proof.
  intros Hname Hex Hm Hu Hp He Hit Hids r c. subst r c.
  rewrite (process_notification_run _ _ _ _ _ Hex).
  rewrite (emit_run _ _ _ _ _ Hm). cbv zeta.
  rewrite (iter_resources_frame _ _ _ _ _ Hit (fresh_loc_unused h')).
  destruct (emit_loop_ok self (fresh (dom h')) m h' u p et Hu Hp He xs ids
              (<[fresh (dom h') := ODict m]> h')) as [_ Hys].
  { eapply Forall2_impl; [exact Hids|]. intros x i Hi. cbn beta in *.
    unfold at_resource. by apply getitem_frame, fresh_loc_unused. }
  rewrite Hys. split.
  - intros phase tail Hph ->. f_equal. apply list_fmap_ext.
    intros _ i _. by apply samples_of_resource_phase.
  - intros last Hl ->. clear Hys Hids. induction ids as [|i ids IH]; [done|].
    cbn [fmap list_fmap concat].
    rewrite (samples_of_resource_two_segments _ _ _ _ _ _ _ Hname Hl).
    cbn. f_equal. apply IH.
Qed.

(** Scenario A ("network.create.end") and scenario B ("network.exists"),
    through [delta_sample_named_after_phase]. *)
Lemma delta_sample_scenarios_A_B :
  (yields (NetworkNotificationBase.process_notification Network (VRef 0)
             scenario_A)).*1
  = [mkSample "network" TYPE_GAUGE "network" (VInt 1)
       (VStr "u1") (VStr "p1") (VStr "n1") (VRef 3);
     mkSample "network.create" TYPE_DELTA "network" (VInt 1)
       (VStr "u1") (VStr "p1") (VStr "n1") (VRef 3)]
  ∧ (yields (NetworkNotificationBase.process_notification Network (VRef 0)
               scenario_B)).*1
    = [mkSample "network" TYPE_GAUGE "network" (VInt 1)
         (VStr "u1") (VStr "p1") (VStr "n1") (VRef 5);
       mkSample "network" TYPE_GAUGE "network" (VInt 1)
         (VStr "u1") (VStr "p1") (VStr "n2") (VRef 5)].
Proof.
  split.
  - apply (proj1 (delta_sample_named_after_phase Network scenario_A
             scenario_A 0 (Display [VRef 2])
             (list_to_map [("event_type", VStr "network.create.end");
                           ("payload", VRef 1);
                           ("_context_user_id", VStr "u1");
                           ("_context_tenant_id", VStr "p1")])
             (VStr "u1") (VStr "p1") "network.create.end"
             [VRef 2] [VStr "n1"]
             eq_refl eq_refl eq_refl eq_refl eq_refl eq_refl eq_refl
             ltac:(repeat constructor)) "create" "end"); reflexivity.
  - apply (proj2 (delta_sample_named_after_phase Network scenario_B
             scenario_B 0 (Held (VRef 2))
             (list_to_map [("event_type", VStr "network.exists");
                           ("payload", VRef 1);
                           ("_context_user_id", VStr "u1");
                           ("_context_tenant_id", VStr "p1")])
             (VStr "u1") (VStr "p1") "network.exists"
             [VRef 3; VRef 4] [VStr "n1"; VStr "n2"]
             eq_refl eq_refl eq_refl eq_refl eq_refl eq_refl eq_refl
             ltac:(repeat constructor)) "exists"); reflexivity.
Defined.

(** ** The exceptions of the generic handler *)

Lemma getitem_error h v k e :
  getitem h v k = inl e → e = KeyError k ∨ e = TypeError ∨ ∃ l, e = Wild l.
Proof.
  unfold getitem. repeat case_match; intros [= <-]; eauto.
Qed.

Lemma dict_get_error h v k e :
  dict_get h v k = inl e → e = AttributeError ∨ ∃ l, e = Wild l.
Proof. unfold dict_get. repeat case_match; intros [= <-]; eauto. Qed.

Lemma truthy_error h v e : truthy h v = inl e → ∃ l, e = Wild l.
Proof. unfold truthy. repeat case_match; intros [= <-]; eauto. Qed.

Lemma setitem_error h v k x e :
  setitem h v k x = inl e → e = TypeError ∨ ∃ l, e = Wild l.
Proof. unfold setitem. repeat case_match; intros [= <-]; eauto. Qed.

Lemma iter_error h v e :
  iter h v = inl e → e = TypeError ∨ ∃ l, e = Wild l.
Proof. unfold iter. repeat case_match; intros [= <-]; eauto. Qed.

(** An exception that ends the loop is the exception of one turn. *)
Lemma emit_loop_error self c m h xs e :
  ∀ cur,
  result (emit_loop_outcome self c m h cur xs) = inl e →
  ∃ x, x ∈ xs ∧ (emit_one_outcome self c m h x).2 = inl e.
Proof.
  induction xs as [|x xs IH]; intros cur; [done|].
  cbn [emit_loop_outcome]. cbv zeta.
  destruct (emit_one_outcome self c m h x).2 as [e'|[]] eqn:Ho.
  - intros [= ->]. exists x. split; [left|done].
  - cbn [result]. intros (y & Hy & Hr)%IH. exists y. split; [by right|done].
Qed.

Lemma emit_one_outcome_error self c m h x e :
  (emit_one_outcome self c m h x).2 = inl e →
  e = KeyError "_context_user_id" ∨ e = KeyError "_context_tenant_id"
  ∨ e = KeyError "event_type" ∨ e = AttributeError
  ∨ getitem (at_resource c m h x) x "id" = inl e.
Proof.
  unfold emit_one_outcome.
  destruct (m !! "_context_user_id") as [u|]; [|intros [= <-]; auto].
  destruct (m !! "_context_tenant_id") as [p|]; [|intros [= <-]; auto].
  destruct (getitem (at_resource c m h x) x "id") as [e'|i];
    [intros [= <-]; auto 6|].
  destruct (m !! "event_type") as [ev|]; [|intros [= <-]; auto].
  destruct ev as [| | | |et|]; try (intros [= <-]; auto). cbn [split_dot].
  destruct (2 <? length (str_split "." et)) eqn:Hlen; [|done].
  destruct (str_split "." et !! 1) as [ph|] eqn:Hph; [done|].
  apply Nat.ltb_lt in Hlen. apply lookup_ge_None in Hph. lia.
Qed.

Lemma extract_error self message h e :
  result (NetworkNotificationBase.extract self message h) = inl e →
  generic_handler_error e = true.
Proof.
  assert (G : ∀ v k, getitem h v k = inl e →
              k ∈ ["payload"; "event_type"; "id"] →
              generic_handler_error e = true).
  { intros v k [->|[->|[l ->]]]%getitem_error Hk; try done.
    rewrite !elem_of_cons in Hk.
    by destruct Hk as [->|[->|[->|?%elem_of_nil]]]. }
  unfold NetworkNotificationBase.extract.
  gstep. destruct (getitem h message "payload") as [e1|payload] eqn:Hp.
  { intros [= ->]. eapply G; [done|set_solver]. }
  gstep. destruct (dict_get h payload _) as [e1|resource] eqn:Hr.
  { intros [= ->]. by apply dict_get_error in Hr as [->|[l ->]]. }
  gstep. destruct (truthy h resource) as [e1|[]] eqn:Ht.
  { intros [= ->]. by apply truthy_error in Ht as [l ->]. }
  - gstep. destruct (getitem h message "event_type") as [e1|et] eqn:He.
    { intros [= ->]. eapply G; [done|set_solver]. }
    gstep. destruct et as [| | | |et|]; try (by intros [= <-]).
    cbn [endswith]. destruct (str_endswith et "update.start").
    + do 2 gstep. rewrite Hp.
      do 2 gstep. destruct (getitem h payload "id") as [e1|id] eqn:Hid.
      { intros [= ->]. eapply G; [done|set_solver]. }
      gstep. destruct (setitem h resource "id" id) as [e1|h'] eqn:Hs;
        [|by cbn].
      intros [= ->]. by apply setitem_error in Hs as [->|[l ->]].
    + by gstep.
  - gstep. rewrite Hp.
    gstep.
    destruct (dict_get h payload (resource_name self +:+ "s"))
      as [e1|held] eqn:Hh; [|by cbn].
    intros [= ->]. by apply dict_get_error in Hh as [->|[l ->]].
Qed.

(** Whatever the message and the store, an exception of the generic
    handler is a KeyError for "payload", "event_type", "id",
    "_context_user_id" or "_context_tenant_id", a TypeError or an
    AttributeError (or the model's stop at a reference out of the store):
    in particular the subscript [event_type_split[1]] never raises
    IndexError. *)
Theorem generic_handler_exceptions
    (self : plugin) (message : val) (h : heap) (e : exn) :
  result (NetworkNotificationBase.process_notification self message h)
    = inl e →
  generic_handler_error e = true.
Proof.
  destruct (result (NetworkNotificationBase.extract self message h))
    as [e'|rs] eqn:E.
  { rewrite (process_notification_raises _ _ _ _ E). intros [= ->].
    by eapply extract_error. }
  apply extract_returns in E as (lm & h' & -> & Hx & Hex).
  assert (∃ m0, h !! lm = Some (ODict m0)) as [m0 Hm0]
    by (destruct Hx; eauto).
  destruct (extracts_message _ _ _ _ _ _ Hx Hm0) as (m & Hm & _).
  rewrite (process_notification_run _ _ _ _ _ Hex).
  rewrite (emit_run _ _ _ _ _ Hm). cbv zeta.
  destruct (result (iter_resources rs _)) as [e'|xs] eqn:Hit.
  { intros [= ->]. destruct rs as [ys|v]; [done|]. cbn in Hit.
    by apply iter_error in Hit as [->|[l ->]]. }
  intros (x & _ & Hx1)%emit_loop_error.
  apply emit_one_outcome_error in Hx1 as [->|[->|[->|[->|Hg]]]]; try done.
  by apply getitem_error in Hg as [->|[->|[l ->]]].
Qed.

(** The empty payload, through [generic_handler_exceptions]. *)
Lemma generic_handler_exceptions_empty_payload :
  result (NetworkNotificationBase.process_notification Network (VRef 0)
            empty_payload) = inl TypeError
  ∧ generic_handler_error TypeError = true.
Proof.
  split; [reflexivity|].
  apply (generic_handler_exceptions Network (VRef 0) empty_payload TypeError).
  reflexivity.
Defined.

(** ** A resource that cannot be handled *)

Lemma getitem_frame_error h v k e c o :
  getitem h v k = inl e → (∀ l, e ≠ Wild l) → h !! c = None →
  getitem (<[c := o]> h) v k = inl e.
Proof.
  intros E Hw Hc. destruct v as [| | | | |l]; try done. cbn in *.
  destruct (h !! l) as [ob|] eqn:Hl.
  - rewrite lookup_insert_ne by (intros ->; congruence). by rewrite Hl.
  - injection E as <-. by destruct (Hw l).
Qed.

Lemma emit_loop_stops self c m h u p et :
  m !! "_context_user_id" = Some u →
  m !! "_context_tenant_id" = Some p →
  m !! "event_type" = Some (VStr et) →
  ∀ pre ids x post e cur,
  Forall2 (λ y i, getitem (at_resource c m h y) y "id" = inr i) pre ids →
  getitem (at_resource c m h x) x "id" = inl e →
  let r := emit_loop_outcome self c m h cur (pre ++ x :: post) in
  result r = inl e
  ∧ (yields r).*1
    = concat ((λ i, samples_of_resource self et u p i (VRef c)) <$> ids)
  ∧ final r = at_resource c m h x.
Proof.
  intros Hu Hp He pre ids x post e cur Hids Hx. revert cur.
  induction Hids as [|y i pre ids Hi _ IH]; intros cur.
  - cbn [app emit_loop_outcome]. cbv zeta. unfold emit_one_outcome.
    by rewrite Hu, Hp, Hx.
  - cbn [app emit_loop_outcome]. cbv zeta.
    rewrite (emit_one_outcome_ok _ _ _ _ _ _ _ _ _ Hu Hp He Hi).
    cbn [fst snd result yields final].
    destruct (IH (at_resource c m h y)) as (Hres & Hys & Hfin).
    split; [done|]. split; [|done].
    rewrite fmap_app, Hys, <-list_fmap_compose.
    cbn [fmap list_fmap concat]. f_equal. by rewrite list_fmap_id.
Qed.

(** When a resource of the collection has no "id" (KeyError) or is not a
    dict (TypeError), the samples of the resources before it have all been
    yielded, in order, when the exception is raised; it and the resources
    after it get none. *)
Theorem samples_before_a_failing_resource
    (self : plugin) (h h' : heap) (lm : loc) (rs : resources)
    (m : gmap string val) (u p : val) (et : string)
    (pre ids post : list val) (x : val) (e : exn) :
  NetworkNotificationBase.extract self (VRef lm) h = Run [] (inr rs) h' →
  h' !! lm = Some (ODict m) →
  m !! "_context_user_id" = Some u →
  m !! "_context_tenant_id" = Some p →
  m !! "event_type" = Some (VStr et) →
  result (iter_resources rs h') = inr (pre ++ x :: post) →
  Forall2 (λ y i, getitem h' y "id" = inr i) pre ids →
  getitem h' x "id" = inl e →
  (∀ l, e ≠ Wild l) →
  let r := NetworkNotificationBase.process_notification self (VRef lm) h in
  result r = inl e
  ∧ (yields r).*1
    = concat ((λ i, samples_of_resource self et u p i
                      (VRef (fresh (dom h')))) <$> ids).
Proof.
  intros Hex Hm Hu Hp He Hit Hids Hx Hw r. subst r.
  rewrite (process_notification_run _ _ _ _ _ Hex).
  rewrite (emit_run _ _ _ _ _ Hm). cbv zeta.
  rewrite (iter_resources_frame _ _ _ _ _ Hit (fresh_loc_unused h')).
  destruct (emit_loop_stops self (fresh (dom h')) m h' u p et Hu Hp He
              pre ids x post e (<[fresh (dom h') := ODict m]> h'))
    as (Hres & Hys & _); [| |done].
  - eapply Forall2_impl; [exact Hids|]. intros y i Hi. cbn beta in *.
    unfold at_resource. by apply getitem_frame, fresh_loc_unused.
  - unfold at_resource. by apply getitem_frame_error, fresh_loc_unused.
Qed.

(** A collection whose second resource has no id, through
    [samples_before_a_failing_resource]. *)
Lemma samples_before_second_without_id :
  let r := NetworkNotificationBase.process_notification Network (VRef 0)
             second_without_id in
  result r = inl (KeyError "id")
  ∧ (yields r).*1
    = [mkSample "network" TYPE_GAUGE "network" (VInt 1)
         (VStr "u1") (VStr "p1") (VStr "n1") (VRef 6);
       mkSample "network.create" TYPE_DELTA "network" (VInt 1)
         (VStr "u1") (VStr "p1") (VStr "n1") (VRef 6)].
Proof.
  apply (samples_before_a_failing_resource Network second_without_id
           second_without_id 0 (Held (VRef 2))
           (list_to_map [("event_type", VStr "network.create.end");
                         ("payload", VRef 1);
                         ("_context_user_id", VStr "u1");
                         ("_context_tenant_id", VStr "p1")])
           (VStr "u1") (VStr "p1") "network.create.end"
           [VRef 3] [VStr "n1"] [VRef 5] (VRef 4) (KeyError "id"));
    try reflexivity; [repeat constructor|done].
Defined.

(** ** "update.start" without a top-level id *)

(** On an event type ending in "update.start", when the payload holds a
    truthy value under [resource_name] but no top-level "id", the handler
    raises KeyError("id") before anything else happens: no sample, and the
    store untouched, even when the resource carries an id of its own. *)
Theorem update_start_needs_the_payload_id
    (self : plugin) (h : heap) (lm lp : loc) (m dp : gmap string val)
    (et : string) :
  h !! lm = Some (ODict m) →
  m !! "payload" = Some (VRef lp) →
  h !! lp = Some (ODict dp) →
  m !! "event_type" = Some (VStr et) →
  str_endswith et "update.start" = true →
  truthy h (default VNone (dp !! resource_name self)) = inr true →
  dp !! "id" = None →
  NetworkNotificationBase.process_notification self (VRef lm) h
  = Run [] (inl (KeyError "id")) h.
Proof.
  intros Hm Hpay Hlp Hev Hend Ht Hid.
  apply process_notification_raises.
  unfold NetworkNotificationBase.extract.
  gstep. rewrite (getitem_dict _ _ _ _ Hm), Hpay.
  gstep. rewrite (dict_get_dict _ _ _ _ Hlp).
  gstep. rewrite Ht.
  gstep. rewrite (getitem_dict _ _ _ _ Hm), Hev.
  gstep. cbn [endswith]. rewrite Hend.
  do 2 gstep. rewrite (getitem_dict _ _ _ _ Hm), Hpay.
  do 2 gstep. by rewrite (getitem_dict _ _ _ _ Hlp), Hid.
Qed.

(** A resource with its own id and no top-level id, through
    [update_start_needs_the_payload_id]. *)
Lemma update_start_no_payload_id_raises :
  NetworkNotificationBase.process_notification Network (VRef 0)
    update_start_no_payload_id
  = Run [] (inl (KeyError "id")) update_start_no_payload_id.
Proof.
  apply (update_start_needs_the_payload_id Network
           update_start_no_payload_id 0 1
           (list_to_map [("event_type", VStr "network.update.start");
                         ("payload", VRef 1);
                         ("_context_user_id", VStr "u1");
                         ("_context_tenant_id", VStr "p1")])
           (list_to_map [("network", VRef 2)])
           "network.update.start"); reflexivity.
Defined.

(** ** What the generic handler leaves of the store *)

Lemma emit_loop_final self c m h xs :
  ∀ cur,
  final (emit_loop_outcome self c m h cur xs) = cur
  ∨ ∃ x, x ∈ xs
         ∧ final (emit_loop_outcome self c m h cur xs) = at_resource c m h x.
Proof.
  induction xs as [|x xs IH]; intros cur; [by left|].
  cbn [emit_loop_outcome]. cbv zeta. right.
  destruct (emit_one_outcome self c m h x).2 as [e|[]].
  - exists x. split; [left|done].
  - cbn [final]. destruct (IH (at_resource c m h x)) as [->|(y & Hy & ->)].
    + exists x. split; [left|done].
    + exists y. split; [by right|done].
Qed.

(** Once the extraction has returned, the handler leaves the store the
    extraction left plus the message copy at the first free location,
    holding the items of the message with, possibly, another payload. *)
Lemma process_notification_final self lm h rs h' m :
  NetworkNotificationBase.extract self (VRef lm) h = Run [] (inr rs) h' →
  h' !! lm = Some (ODict m) →
  ∃ m', final (NetworkNotificationBase.process_notification self
                 (VRef lm) h)
        = <[fresh (dom h') := ODict m']> h'
        ∧ (m' = m ∨ ∃ x, m' = <["payload" := x]> m).
Proof.
  intros Hex Hm.
  rewrite (process_notification_run _ _ _ _ _ Hex).
  rewrite (emit_run _ _ _ _ _ Hm). cbv zeta.
  destruct (result (iter_resources rs _)) as [e|xs].
  { exists m. split; [done|by left]. }
  destruct (emit_loop_final self (fresh (dom h')) m h' xs
              (<[fresh (dom h') := ODict m]> h')) as [->|(x & _ & ->)].
  - exists m. split; [done|by left].
  - exists (<["payload" := x]> m). split; [done|]. right. by exists x.
Qed.

Lemma extracts_dom self h lm rs h' :
  extracts self h lm rs h' → dom h' = dom h.
Proof.
  intros [| |m lp dp et lr d v _ _ _ _ Hlr _ _ _ _]; [done..|].
  apply dom_insert_lookup_L. by rewrite Hlr.
Qed.

(** The generic handler never deletes or replaces an object of the input
    store, with one exception: the resource object whose "id" item the
    "update.start" backfill writes.  The only object it adds is the message
    copy, at the first free location; and the store in which each sample is
    yielded differs from the final one at most there. *)
Theorem generic_handler_store_frame
    (self : plugin) (message : val) (h : heap) :
  let r := NetworkNotificationBase.process_notification self message h in
  (∀ l o, h !! l = Some o →
     final r !! l = Some o
     ∨ ∃ d v payload,
         o = ODict d
         ∧ final r !! l = Some (ODict (<["id" := v]> d))
         ∧ getitem h message "payload" = inr payload
         ∧ getitem h payload (resource_name self) = inr (VRef l)
         ∧ getitem h payload "id" = inr v)
  ∧ (∀ l, h !! l = None → l ≠ fresh (dom h) → final r !! l = None)
  ∧ Forall (λ y, ∀ l, l ≠ fresh (dom h) → y.2 !! l = final r !! l)
      (yields r).
Proof.
  intros r. subst r.
  destruct (result (NetworkNotificationBase.extract self message h))
    as [e|rs] eqn:E.
  { rewrite (process_notification_raises _ _ _ _ E). cbn.
    split; [by left|]. split; [done|constructor]. }
  apply extract_returns in E as (lm & h' & -> & Hx & Hex).
  assert (∃ m0, h !! lm = Some (ODict m0)) as [m0 Hm0]
    by (destruct Hx; eauto).
  destruct (extracts_message _ _ _ _ _ _ Hx Hm0) as (m & Hm & _).
  destruct (process_notification_final _ _ _ _ _ _ Hex Hm)
    as (m' & Hfin & _).
  pose proof (extracts_dom _ _ _ _ _ Hx) as Hdom.
  rewrite Hfin, Hdom. clear Hfin.
  assert (Hoff : ∀ l, l ≠ fresh (dom h) →
            <[fresh (dom h) := ODict m']> h' !! l = h' !! l)
    by (intros l Hl; by rewrite lookup_insert_ne).
  split; [|split].
  - intros l o Hl.
    rewrite Hoff by (intros ->; by rewrite fresh_loc_unused in Hl).
    destruct Hx as [| |m1 lp dp et lr d v Hm1 Hpay Hlp Hname Hlr _ _ _ Hid];
      [by left..|].
    destruct (decide (l = lr)) as [->|Hne].
    + right. assert (o = ODict d) as -> by congruence.
      exists d, v, (VRef lp). split; [done|]. rewrite lookup_insert_eq.
      split; [done|].
      rewrite (getitem_dict _ _ _ _ Hm1), Hpay.
      by rewrite !(getitem_dict _ _ _ _ Hlp), Hname, Hid.
    + left. by rewrite lookup_insert_ne.
  - intros l Hl Hne. rewrite Hoff by done.
    apply not_elem_of_dom. rewrite Hdom. by apply not_elem_of_dom.
  - eapply Forall_impl;
      [exact (process_notification_yields _ _ _ _ _ _ Hex Hm)|].
    intros [s hy] (x & -> & _) l Hl. cbn [snd]. unfold at_resource.
    rewrite Hdom. by rewrite Hoff, lookup_insert_ne.
Qed.

(** ** Closed stores stay closed *)

Lemma closed_intro h :
  (∀ l o v, h !! l = Some o → v ∈ obj_items o → bound h v = true) →
  closed h = true.
Proof.
  intros H. unfold closed. apply forallb_forall.
  intros o [[l o'] [-> Hlo]]%list_elem_of_In%list_elem_of_fmap.
  apply elem_of_map_to_list in Hlo. apply forallb_forall.
  intros v Hv%list_elem_of_In. by eapply H.
Qed.

Lemma dict_items_insert (d : gmap string val) k x v :
  v ∈ obj_items (ODict (<[k := x]> d)) → v = x ∨ v ∈ obj_items (ODict d).
Proof.
  cbn. intros [[k' v'] [-> Hkv]]%list_elem_of_fmap.
  apply elem_of_map_to_list in Hkv. cbn.
  apply lookup_insert_Some in Hkv as [[_ ->]|[_ Hkv]]; [by left|right].
  apply list_elem_of_fmap. exists (k', v'). split; [done|].
  by apply elem_of_map_to_list.
Qed.

Lemma closed_insert h l o :
  closed h = true →
  (∀ v, v ∈ obj_items o → bound h v = true ∨ v = VRef l) →
  closed (<[l := o]> h) = true.
Proof.
  intros Hc Ho. apply closed_intro. intros l' o' v Hl' Hv.
  assert (Hb : bound h v = true ∨ v = VRef l).
  { apply lookup_insert_Some in Hl' as [[_ <-]|[_ Hl']]; [by apply Ho|].
    left. by eapply closed_lookup. }
  destruct Hb as [Hb| ->]; [by apply bound_frame|].
  cbn. apply bool_decide_eq_true. rewrite lookup_insert_eq. eauto.
Qed.

Lemma closed_insert_dict h l d :
  closed h = true →
  (∀ v, v ∈ obj_items (ODict d) → bound h v = true) →
  closed (<[l := ODict d]> h) = true.
Proof. intros Hc Hd. apply closed_insert; [done|]. intros v Hv. left. auto. Qed.

Lemma getitem_bound h v k x :
  closed h = true → getitem h v k = inr x → bound h x = true.
Proof.
  intros Hc (l & d & -> & Hl & Hk)%getitem_inr. by eapply closed_dict_item.
Qed.

Lemma dict_get_bound h v k x :
  closed h = true → dict_get h v k = inr x → bound h x = true.
Proof.
  intros Hc (l & d & -> & Hl & ->)%dict_get_inr.
  destruct (d !! k) as [y|] eqn:Hk; [|done]. by eapply closed_dict_item.
Qed.

Lemma not_wild_of_bound h v l : bound h v = true → v = VRef l → h !! l ≠ None.
Proof.
  intros Hb ->. cbn in Hb. apply bool_decide_eq_true in Hb as [o Ho].
  congruence.
Qed.

Lemma getitem_wild h v k l : getitem h v k = inl (Wild l) → bound h v = false.
Proof.
  unfold getitem. repeat case_match; intros [= <-]. cbn.
  apply bool_decide_eq_false. intros [o Ho]. congruence.
Qed.

Lemma dict_get_wild h v k l :
  dict_get h v k = inl (Wild l) → bound h v = false.
Proof.
  unfold dict_get. repeat case_match; intros [= <-]. cbn.
  apply bool_decide_eq_false. intros [o Ho]. congruence.
Qed.

Lemma truthy_wild h v l : truthy h v = inl (Wild l) → bound h v = false.
Proof.
  unfold truthy. repeat case_match; intros [= <-]. cbn.
  apply bool_decide_eq_false. intros [o Ho]. congruence.
Qed.

Lemma setitem_wild h v k x l :
  setitem h v k x = inl (Wild l) → bound h v = false.
Proof.
  unfold setitem. repeat case_match; intros [= <-]. cbn.
  apply bool_decide_eq_false. intros [o Ho]. congruence.
Qed.

Lemma iter_wild h v l : iter h v = inl (Wild l) → bound h v = false.
Proof.
  unfold iter. repeat case_match; intros [= <-]. cbn.
  apply bool_decide_eq_false. intros [o Ho]. congruence.
Qed.

(** In a closed store the extraction never stops at a reference out of
    the store. *)
Lemma extract_not_wild self message h l :
  closed h = true → bound h message = true →
  result (NetworkNotificationBase.extract self message h) ≠ inl (Wild l).
Proof.
  intros Hc Hb. unfold NetworkNotificationBase.extract.
  gstep. destruct (getitem h message "payload") as [e1|payload] eqn:Hp.
  { intros [= ->]. apply getitem_wild in Hp. congruence. }
  pose proof (getitem_bound _ _ _ _ Hc Hp) as Hbp.
  gstep. destruct (dict_get h payload (resource_name self))
    as [e1|resource] eqn:Hr.
  { intros [= ->]. apply dict_get_wild in Hr. congruence. }
  pose proof (dict_get_bound _ _ _ _ Hc Hr) as Hbr.
  gstep. destruct (truthy h resource) as [e1|[]] eqn:Ht.
  { intros [= ->]. apply truthy_wild in Ht. congruence. }
  - gstep. destruct (getitem h message "event_type") as [e1|et] eqn:He.
    { intros [= ->]. apply getitem_wild in He. congruence. }
    gstep. destruct et as [| | | |et|]; try (by intros [= <-]).
    cbn [endswith]. destruct (str_endswith et "update.start").
    + do 2 gstep. rewrite Hp.
      do 2 gstep. destruct (getitem h payload "id") as [e1|id] eqn:Hid.
      { intros [= ->]. apply getitem_wild in Hid. congruence. }
      gstep. destruct (setitem h resource "id" id) as [e1|h'] eqn:Hs;
        [|by cbn].
      intros [= ->]. apply setitem_wild in Hs. congruence.
    + by gstep.
  - gstep. rewrite Hp.
    gstep.
    destruct (dict_get h payload (resource_name self +:+ "s"))
      as [e1|held] eqn:Hh; [|by cbn].
    intros [= ->]. apply dict_get_wild in Hh. congruence.
Qed.

(** The store the extraction leaves is closed. *)
Lemma extracts_closed self h lm rs h' :
  closed h = true → extracts self h lm rs h' → closed h' = true.
Proof.
  intros Hc [| |m lp dp et lr d v _ _ Hlp _ Hlr _ _ _ Hid]; [done..|].
  apply closed_insert_dict; [done|].
  intros x [->|Hx]%dict_items_insert.
  - exact (closed_dict_item _ _ _ _ _ Hc Hlp Hid).
  - exact (closed_lookup _ _ _ _ Hc Hlr Hx).
Qed.

(** In a closed store, with a message that is in the store, the generic
    handler never reaches a reference out of the store, and every store it
    shows (at each yield, at the end) is closed again: the model's [Wild]
    stop is out of reach of any Python heap, and the handler can be run
    again on what it leaves. *)
Theorem closed_store_is_kept
    (self : plugin) (message : val) (h : heap) :
  closed h = true →
  bound h message = true →
  let r := NetworkNotificationBase.process_notification self message h in
  closed (final r) = true
  ∧ Forall (λ y, closed y.2 = true) (yields r)
  ∧ ∀ l, result r ≠ inl (Wild l).
Proof.
  intros Hc Hb r. subst r.
  destruct (result (NetworkNotificationBase.extract self message h))
    as [e|rs] eqn:E.
  { rewrite (process_notification_raises _ _ _ _ E). cbn.
    split; [done|]. split; [constructor|].
    intros l [= ->]. by apply (extract_not_wild self message h l). }
  apply extract_returns in E as (lm & h' & -> & Hx & Hex).
  assert (∃ m0, h !! lm = Some (ODict m0)) as [m0 Hm0]
    by (destruct Hx; eauto).
  destruct (extracts_message _ _ _ _ _ _ Hx Hm0) as (m & Hm & _).
  pose proof (extracts_closed _ _ _ _ _ Hc Hx) as Hc'.
  set (c := fresh (dom h')).
  pose proof (fresh_loc_unused h') as Hfree. fold c in Hfree.
  assert (Hcopy : closed (<[c := ODict m]> h') = true).
  { apply closed_insert_dict; [done|]. intros v Hv.
    exact (closed_lookup _ _ _ _ Hc' Hm Hv). }
  assert (Hat : ∀ x, bound h' x = true → closed (at_resource c m h' x) = true).
  { intros x Hbx. apply closed_insert_dict; [done|].
    intros v [->|Hv]%dict_items_insert; [done|].
    exact (closed_lookup _ _ _ _ Hc' Hm Hv). }
  rewrite (process_notification_run _ _ _ _ _ Hex).
  rewrite (emit_run _ _ _ _ _ Hm). cbv zeta. fold c.
  rewrite (iter_resources_frame_bound rs h' c);
    [|exact (extracts_held_bound _ _ _ _ _ Hc Hx)|done].
  destruct (result (iter_resources rs h')) as [e|xs] eqn:Hit.
  { cbn. split; [done|]. split; [constructor|]. intros l [= ->].
    pose proof (extracts_held_bound _ _ _ _ _ Hc Hx) as Hbv.
    destruct rs as [ys|v]; [done|]. cbn in Hit.
    apply iter_wild in Hit. congruence. }
  pose proof (extracts_items_bound _ _ _ _ _ _ Hc Hx Hit) as Hxs.
  rewrite Forall_forall in Hxs.
  split; [|split].
  - destruct (emit_loop_final self c m h' xs (<[c := ODict m]> h'))
      as [->|(x & Hin & ->)]; [done|]. by apply Hat, Hxs.
  - eapply Forall_impl; [apply emit_loop_yields|].
    intros [s hy] (x & Hin & -> & _). cbn [snd]. by apply Hat, Hxs.
  - intros l (x & Hin & Ho)%emit_loop_error.
    apply emit_one_outcome_error in Ho as [?|[?|[?|[?|Hg]]]]; try done.
    apply getitem_wild in Hg.
    pose proof (bound_frame h' x c (ODict (<["payload" := x]> m))
                  (Hxs x Hin)) as Hbx.
    unfold at_resource in Hg. congruence.
Qed.

(** Scenario D, through [closed_store_is_kept]. *)
Lemma closed_store_is_kept_scenario_D :
  let r := NetworkNotificationBase.process_notification Network (VRef 0)
             scenario_D in
  closed (final r) = true
  ∧ Forall (λ y, closed y.2 = true) (yields r)
  ∧ ∀ l, result r ≠ inl (Wild l).
Proof.
  apply (closed_store_is_kept Network (VRef 0) scenario_D); reflexivity.
Defined.

(** ** What every sample of the generic handler looks like *)

Lemma emit_one_outcome_sample_shape self c m h x s :
  s ∈ (emit_one_outcome self c m h x).1 →
  sample_volume s = VInt 1
  ∧ sample_unit s = unit_value self
  ∧ ((sample_type_of s = TYPE_GAUGE ∧ sample_name s = counter_name self)
     ∨ (sample_type_of s = TYPE_DELTA
        ∧ ∃ et phase,
            m !! "event_type" = Some (VStr et)
            ∧ str_split "." et !! 1 = Some phase
            ∧ sample_name s = counter_name self +:+ "." +:+ phase)).
Proof.
  unfold emit_one_outcome.
  destruct (m !! "_context_user_id") as [u|]; [|by intros ?%elem_of_nil].
  destruct (m !! "_context_tenant_id") as [p|]; [|by intros ?%elem_of_nil].
  destruct (getitem _ x "id") as [e|i]; [by intros ?%elem_of_nil|].
  cbv zeta.
  assert (G : s = from_notification (counter_name self) TYPE_GAUGE
                    (unit_value self) (VInt 1) u p i (VRef c) →
              sample_volume s = VInt 1
              ∧ sample_unit s = unit_value self
              ∧ ((sample_type_of s = TYPE_GAUGE
                  ∧ sample_name s = counter_name self)
                 ∨ (sample_type_of s = TYPE_DELTA
                    ∧ ∃ et phase,
                        m !! "event_type" = Some (VStr et)
                        ∧ str_split "." et !! 1 = Some phase
                        ∧ sample_name s
                          = counter_name self +:+ "." +:+ phase)))
    by (intros ->; repeat split; by left).
  destruct (m !! "event_type") as [ev|];
    [|intros ->%list_elem_of_singleton; by apply G].
  destruct ev as [| | | |et|];
    try (intros ->%list_elem_of_singleton; by apply G).
  cbn [split_dot].
  destruct (2 <? length (str_split "." et));
    [|intros ->%list_elem_of_singleton; by apply G].
  destruct (str_split "." et !! 1) as [ph|] eqn:Hph;
    [|intros ->%list_elem_of_singleton; by apply G].
  cbn [fst]. intros [->|Hs%list_elem_of_singleton]%elem_of_cons;
    [by apply G|subst s].
  repeat split. right. split; [done|]. by exists et, ph.
Qed.

(** On any message and store, every sample the generic handler yields has
    the volume 1 and the plugin's unit, and is either a gauge named
    [counter_name] or a DELTA named [counter_name + "." + phase] for the
    second segment of the event type that the message it carries holds;
    its user and project ids are the context items of that message.  No
    sample is CUMULATIVE. *)
Theorem every_generic_sample
    (self : plugin) (message : val) (h : heap) :
  Forall (λ y,
      sample_volume y.1 = VInt 1
      ∧ sample_unit y.1 = unit_value self
      ∧ sample_type_of y.1 ≠ TYPE_CUMULATIVE
      ∧ ((sample_type_of y.1 = TYPE_GAUGE
          ∧ sample_name y.1 = counter_name self)
         ∨ (sample_type_of y.1 = TYPE_DELTA
            ∧ ∃ et phase,
                getitem y.2 (sample_message y.1) "event_type"
                  = inr (VStr et)
                ∧ str_split "." et !! 1 = Some phase
                ∧ sample_name y.1 = counter_name self +:+ "." +:+ phase))
      ∧ getitem y.2 (sample_message y.1) "_context_user_id"
        = inr (sample_user_id y.1)
      ∧ getitem y.2 (sample_message y.1) "_context_tenant_id"
        = inr (sample_project_id y.1))
    (yields (NetworkNotificationBase.process_notification self message h)).
Proof.
  destruct (process_notification_cases self message h)
    as [->|(lm & rs & h' & m & -> & Hex & Hm)]; [by constructor|].
  eapply Forall_impl; [exact (process_notification_yields _ _ _ _ _ _ Hex Hm)|].
  intros [s hy] (x & -> & Hs). cbn [fst snd] in *.
  pose proof (emit_one_outcome_samples _ _ _ _ _ _ Hs) as (Hmsg & _ & Hu & Hp).
  pose proof (emit_one_outcome_sample_shape _ _ _ _ _ _ Hs)
    as (Hvol & Hunit & Hkind).
  rewrite Hmsg, !getitem_copy, Hu, Hp by done.
  split; [done|]. split; [done|]. split; [|split; [|done]].
  - destruct Hkind as [[-> _]|[-> _]]; done.
  - destruct Hkind as [?|(Ht & et & ph & He & Hph & Hn)]; [by left|right].
    split; [done|]. exists et, ph. by rewrite He.
Qed.

(** ** The bandwidth handler, key by key *)

(** For a message whose payload is a dict, the bandwidth handler reads
    "bytes", "tenant_id" and "label_id" in this order and raises KeyError
    for the first that is missing, without a sample; it yields its one
    sample exactly when it ends normally; it never looks at the event type
    or at the context fields, and never changes the store. *)
Theorem bandwidth_first_missing_key
    (h : heap) (lm lp : loc) (m p : gmap string val) :
  h !! lm = Some (ODict m) →
  m !! "payload" = Some (VRef lp) →
  h !! lp = Some (ODict p) →
  let r := Bandwidth.process_notification (VRef lm) h in
  final r = h
  ∧ result r
    = match p !! "bytes", p !! "tenant_id", p !! "label_id" with
      | None, _, _ => inl (KeyError "bytes")
      | Some _, None, _ => inl (KeyError "tenant_id")
      | Some _, Some _, None => inl (KeyError "label_id")
      | Some _, Some _, Some _ => inr tt
      end
  ∧ length (yields r) = match result r with inr _ => 1 | inl _ => 0 end.
Proof.
  intros Hm Hpay Hp r. subst r.
  unfold Bandwidth.process_notification.
  rewrite !bind_getitem, !(getitem_dict _ _ _ _ Hm), Hpay.
  rewrite !bind_getitem, !(getitem_dict _ _ _ _ Hp).
  destruct (p !! "bytes") as [b|]; [|done].
  rewrite !bind_getitem, !(getitem_dict _ _ _ _ Hm), Hpay.
  rewrite !bind_getitem, !(getitem_dict _ _ _ _ Hp).
  destruct (p !! "tenant_id") as [t|]; [|done].
  rewrite !bind_getitem, !(getitem_dict _ _ _ _ Hm), Hpay.
  rewrite !bind_getitem, !(getitem_dict _ _ _ _ Hp).
  by destruct (p !! "label_id") as [l|].
Qed.

(** A payload with neither bytes nor label_id, through
    [bandwidth_first_missing_key]: the KeyError is for "bytes". *)
Lemma bandwidth_without_bytes :
  let r := Bandwidth.process_notification (VRef 0) meter_without_bytes in
  final r = meter_without_bytes
  ∧ result r = inl (KeyError "bytes")
  ∧ length (yields r) = 0.
Proof.
  destruct (bandwidth_first_missing_key meter_without_bytes 0 1
              (list_to_map [("event_type", VStr "l3.meter");
                            ("payload", VRef 1)])
              (list_to_map [("tenant_id", VStr "p1")]))
    as (Hfinal & Hresult & Hlength); try reflexivity.
  cbv zeta. split; [exact Hfinal|]. split; [exact Hresult|].
  rewrite Hlength, Hresult. reflexivity.
Defined.

(** ** Targets and plugin classes *)

(** [get_targets] gives one target per notification topic, in the order
    of the topics and all on the configured Neutron exchange; distinct
    topics give distinct targets, and no topic gives no target. *)
Theorem get_targets_one_per_topic (c : conf) :
  target_topic <$> get_targets c = notification_topics c
  ∧ Forall (λ t, target_exchange t = neutron_control_exchange c)
      (get_targets c)
  ∧ (NoDup (notification_topics c) → NoDup (get_targets c))
  ∧ (notification_topics c = [] ↔ get_targets c = []).
Proof.
  unfold get_targets. split; [|split; [|split]].
  - rewrite <-list_fmap_compose. apply list_fmap_id.
  - by apply Forall_fmap, Forall_forall.
  - intros Hnd. apply NoDup_fmap_2; [|done]. by intros t1 t2 [= ->].
  - split; [by intros ->|]. by intros ?%fmap_nil_inv.
Qed.

(** The sixteen plugin classes that keep the generic handler have
    pairwise distinct resource names and pairwise distinct counter names,
    listen to pairwise distinct event types, none of them the bandwidth
    handler's "l3.meter"; no resource name holds a "." (so that the phase
    is always the second segment of the event types listened to) and none
    is "id". *)
Theorem plugin_classes_do_not_collide :
  NoDup (resource_name <$> plugins)
  ∧ NoDup (counter_name <$> plugins)
  ∧ NoDup (concat (event_types <$> plugins) ++ Bandwidth.event_types)
  ∧ Forall (λ c, dot_free (resource_name c) = true
                 ∧ resource_name c ≠ "id") plugins.
Proof.
  split; [|split; [|split]].
  - apply (bool_decide_unpack _). by vm_compute.
  - apply (bool_decide_unpack _). by vm_compute.
  - apply (bool_decide_unpack _). by vm_compute.
  - unfold plugins. repeat constructor; done.
Qed.
